(** * Monzo webhook tools: a model of [delete_webhooks.py] and
    [register_webhooks.py], and the properties of their workflows.

    Both scripts are sequential Python programs that read the process
    environment, talk to the Monzo API through [requests], print progress
    to standard output and errors to standard error, and keep a few
    counters.  They are modelled as computations in a small state monad
    over the process state (the two output streams and the log of HTTP
    exchanges), with the three ways a Python call can end: it returns,
    it leaves through [sys.exit], or an exception nobody catches
    propagates to the top. *)

From stdpp Require Import base option list strings gmap.
From Stdlib Require Import ZArith QArith Ascii.

#[local] Set Warnings "-register-all".
#[local] Open Scope Z_scope.
#[local] Open Scope string_scope.

(** ** Python values *)

(** What [response.json()] can give back: the Python image of a JSON
    document.  A [dict] has unique keys, hence a finite map. *)
Inductive value :=
| VNone
| VBool (b : bool)
| VInt (z : Z)
| VFloat (q : Q)
| VStr (s : string)
| VList (l : list value)
| VDict (o : gmap string value).

(** Exceptions the scripts never catch. *)
Inductive error := AttributeError | TypeError.

(** Truth value testing, as [if x:] and [not x] do it. *)
Definition truthy (v : value) : bool :=
  match v with
  | VNone => false
  | VBool b => b
  | VInt z => negb (Z.eqb z 0)
  | VFloat q => negb (Z.eqb (Qnum q) 0)
  | VStr s => negb (String.eqb s "")
  | VList l => match l with [] => false | _ :: _ => true end
  | VDict o => negb (Nat.eqb (size o) 0)
  end.

(** ** Output *)

(** A printed line is kept as the pieces of its f-string: literal text,
    a value rendered by [str()], or an integer. *)
Inductive frag :=
| Lit (s : string)
| Fmt (v : value)
| Num (n : Z).

Definition text := list frag.

Definition NL : string := String (ascii_of_nat 10) "".

(** ["=" * 50] *)
Definition rule : string := String.concat "" (replicate 50%nat "=").

(** ** HTTP exchanges *)

Inductive method := GET | POST | DELETE.

Record request := Request {
  req_method : method;
  req_url : text;
  req_headers : list (string * string);
  req_params : list (string * value);
  req_data : list (string * value);
  req_timeout : option Z
}.

(** A [requests.exceptions.RequestException]: what [str(e)] shows, and
    the text of [e.response] when the exception carries a response. *)
Record RequestException := {
  exc_str : string;
  exc_response : option string
}.

(** A response object, through what the scripts ask of it:
    [raise_for_status()], which goes by the status code, [.text] and
    [.json()].  [error_message] is what [str()] shows of the [HTTPError]
    that [raise_for_status()] builds from the status line and the URL.
    [.json()] either raises a [RequestException] of its own or gives the
    parsed body. *)
Record Response := {
  status_code : Z;
  error_message : string;
  resp_text : string;
  resp_json : RequestException + value
}.

(** The statuses [raise_for_status()] raises for: the client errors, 400
    to 499, and the server errors, 500 to 599.  Any other status, a 2xx
    but a 1xx or a 3xx as well, lets the call go through. *)
Definition error_status (r : Response) : bool :=
  Z.leb 400 (status_code r) && Z.ltb (status_code r) 600.

(** The message of the [HTTPError] that [raise_for_status()] raises, if
    it raises. *)
Definition http_error (r : Response) : option string :=
  if error_status r then Some (error_message r) else None.
#[global] Arguments http_error : simpl never.

(** What a call to [requests.get], [requests.post] or [requests.delete]
    does: it raises (connection refused, timeout, ...) or it returns a
    response. *)
Inductive reply :=
| Failed (e : RequestException)
| Replied (r : Response).

Definition exchange : Type := request * reply.

(** ** The world and the process *)

(** Everything outside the script: [os.environ], [sys.argv], and the
    remote server together with the network, which answer a request
    knowing all the exchanges that came before it. *)
Record world := {
  environ : gmap string string;
  argv : list string;
  server : list exchange → request → reply
}.

Record proc := Proc {
  stdout : list text;
  stderr : list text;
  trace : list exchange
}.

Definition init : proc := Proc [] [] [].

(** How a call ends: it returns a value, it leaves the process through
    [sys.exit], or it raises an exception that no [except] clause of the
    scripts catches.  The traceback the interpreter then writes is not
    part of [stderr]. *)
Inductive result (A : Type) :=
| Ret (a : A)
| Exit (code : Z)
| Raise (e : error).
Arguments Ret {A} a.
Arguments Exit {A} code.
Arguments Raise {A} e.

Definition M (A : Type) : Type := proc → result A * proc.

#[export] Instance M_ret : MRet M := λ A a p, (Ret a, p).

#[export] Instance M_bind : MBind M := λ A B k m p,
  match m p with
  | (Ret a, p') => k a p'
  | (Exit c, p') => (Exit c, p')
  | (Raise e, p') => (Raise e, p')
  end.

(** [sys.exit(code)] *)
Definition sys_exit {A} (code : Z) : M A := λ p, (Exit code, p).

Definition raise {A} (e : error) : M A := λ p, (Raise e, p).

(** [print(...)] and [print(..., file=sys.stderr)] *)
Definition print (t : text) : M unit :=
  λ p, (Ret tt, Proc (stdout p ++ [t]) (stderr p) (trace p)).

Definition eprint (t : text) : M unit :=
  λ p, (Ret tt, Proc (stdout p) (stderr p ++ [t]) (trace p)).

(** One call into [requests]: the world answers, the exchange is logged. *)
Definition send (w : world) (r : request) : M reply :=
  λ p, let a := server w (trace p) r in
       (Ret a, Proc (stdout p) (stderr p) (trace p ++ [(r, a)])).

(** The exit status the shell sees: 0 when [main] returns, the argument
    of [sys.exit], 1 after a traceback. *)
Definition exit_status {A} (r : result A) : Z :=
  match r with
  | Ret _ => 0
  | Exit c => c
  | Raise _ => 1
  end.

(** ** Python built-ins on values *)

(** [x.get(key, default)]: only a [dict] has the method. *)
Definition dict_get (x : value) (key : string) (dflt : value) : M value :=
  match x with
  | VDict o => mret (default dflt (o !! key))
  | _ => raise AttributeError
  end.

(** [len(x)]; a string is taken as one character per [ascii]. *)
Definition len (x : value) : M Z :=
  match x with
  | VStr s => mret (Z.of_nat (String.length s))
  | VList l => mret (Z.of_nat (length l))
  | VDict o => mret (Z.of_nat (size o))
  | _ => raise TypeError
  end.

Fixpoint chars (s : string) : list value :=
  match s with
  | EmptyString => []
  | String c s' => VStr (String c "") :: chars s'
  end.

(** [for item in x]: the items a loop goes through. *)
Definition iter (x : value) : M (list value) :=
  match x with
  | VStr s => mret (chars s)
  | VList l => mret l
  | VDict o => mret (VStr <$> (map_to_list o).*1)
  | _ => raise TypeError
  end.

(** A [for] loop whose body updates the loop's variables [s]. *)
Fixpoint for_each {A S} (xs : list A) (body : A → S → M S) (s : S) : M S :=
  match xs with
  | [] => mret s
  | x :: xs' => s' ← body x s; for_each xs' body s'
  end.

(** ** The calls shared by the try blocks *)

(** [response.raise_for_status()] *)
Definition raise_for_status (r : Response) : option RequestException :=
  (λ msg, {| exc_str := msg; exc_response := Some (resp_text r) |})
    <$> http_error r.

(** [response = requests.<method>(...); response.raise_for_status()]
    inside a [try] that catches [RequestException]. *)
Definition checked (w : world) (req : request)
  : M (RequestException + Response) :=
  a ← send w req;
  mret (match a with
       | Failed e => inl e
       | Replied r =>
           match raise_for_status r with
           | Some e => inl e
           | None => inr r
           end
       end).

(** The same followed by [data = response.json()]. *)
Definition checked_json (w : world) (req : request)
  : M (RequestException + value) :=
  r ← checked w req;
  mret (match r with
       | inl e => inl e
       | inr r => resp_json r
       end).

Definition MONZO_API_BASE : string := "https://api.monzo.com".

Definition bearer (access_token : string) : list (string * string) :=
  [("Authorization", "Bearer " ++ access_token)].

(** ** delete_webhooks.py *)
Module Delete.

Definition get_access_token (w : world) : M string :=
  let token := environ w !! "MONZO_ACCESS_TOKEN" in
  if negb (truthy (from_option VStr VNone token)) then
    eprint [Lit "Error: MONZO_ACCESS_TOKEN environment variable is not set"];;
    eprint [Lit (NL ++ "Please set your Monzo access token:")];;
    eprint [Lit "  export MONZO_ACCESS_TOKEN=your_token_here"];;
    sys_exit 1
  else mret (default "" token).

Definition accounts_request (access_token : string) : request :=
  Request GET [Lit (MONZO_API_BASE ++ "/accounts")] (bearer access_token)
    [] [] None.

Definition list_accounts (w : world) (access_token : string) : M value :=
  r ← checked_json w (accounts_request access_token);
  match r with
  | inr data => dict_get data "accounts" (VList [])
  | inl e =>
      eprint [Lit "Error listing accounts: "; Lit (exc_str e)];;
      sys_exit 1
  end.

Definition webhooks_request (access_token : string) (account_id : value)
  : request :=
  Request GET [Lit (MONZO_API_BASE ++ "/webhooks")] (bearer access_token)
    [("account_id", account_id)] [] None.

Definition list_webhooks (w : world) (access_token : string)
    (account_id : value) : M value :=
  r ← checked_json w (webhooks_request access_token account_id);
  match r with
  | inr data => dict_get data "webhooks" (VList [])
  | inl e =>
      eprint [Lit "Error listing webhooks for account "; Fmt account_id;
              Lit ": "; Lit (exc_str e)];;
      mret (VList [])
  end.

Definition delete_request (access_token : string) (webhook_id : value)
  : request :=
  Request DELETE [Lit (MONZO_API_BASE ++ "/webhooks/"); Fmt webhook_id]
    (bearer access_token) [] [] None.

Definition delete_webhook (w : world) (access_token : string)
    (webhook_id : value) : M bool :=
  r ← checked w (delete_request access_token webhook_id);
  match r with
  | inr _ => mret true
  | inl e =>
      eprint [Lit "Error deleting webhook "; Fmt webhook_id;
              Lit ": "; Lit (exc_str e)];;
      mret false
  end.

(** The body of [for webhook in webhooks]; the loop carries
    [deleted_webhooks]. *)
Definition delete_one (w : world) (access_token : string)
    (webhook : value) (deleted_webhooks : Z) : M Z :=
  webhook_id ← dict_get webhook "id" VNone;
  webhook_url ← dict_get webhook "url" (VStr "Unknown URL");
  print [Lit "    Deleting webhook: "; Fmt webhook_id];;
  print [Lit "      URL: "; Fmt webhook_url];;
  ok ← delete_webhook w access_token webhook_id;
  if (ok : bool) then
    print [Lit "      ✓ Successfully deleted"];;
    mret (deleted_webhooks + 1)
  else
    print [Lit "      ✗ Failed to delete"];;
    mret deleted_webhooks.

(** The body of [for account in accounts]; the loop carries
    [(total_webhooks, deleted_webhooks)]. *)
Definition process_account (w : world) (access_token : string)
    (account : value) (counters : Z * Z) : M (Z * Z) :=
  let '(total_webhooks, deleted_webhooks) := counters in
  account_id ← dict_get account "id" VNone;
  account_desc ← dict_get account "description" (VStr "Unknown");
  print [Lit (NL ++ "Processing account: "); Fmt account_desc;
         Lit " ("; Fmt account_id; Lit ")"];;
  webhooks ← list_webhooks w access_token account_id;
  if negb (truthy webhooks) then
    print [Lit "  No webhooks found for this account"];;
    mret (total_webhooks, deleted_webhooks)
  else
    n ← len webhooks;
    print [Lit "  Found "; Num n; Lit " webhook(s)"];;
    let total_webhooks := total_webhooks + n in
    items ← iter webhooks;
    deleted_webhooks ←
      for_each items (delete_one w access_token) deleted_webhooks;
    mret (total_webhooks, deleted_webhooks).

Definition print_summary (total_webhooks deleted_webhooks : Z) : M unit :=
  print [Lit (NL ++ rule)];;
  print [Lit "Summary:"];;
  print [Lit "  Total webhooks found: "; Num total_webhooks];;
  print [Lit "  Successfully deleted: "; Num deleted_webhooks];;
  print [Lit "  Failed to delete: ";
         Num (total_webhooks - deleted_webhooks)];;
  print [Lit rule].

Definition main (w : world) : M unit :=
  print [Lit "Monzo Webhook Deletion Tool"];;
  print [Lit rule];;
  access_token ← get_access_token w;
  print [Lit (NL ++ "Fetching accounts...")];;
  accounts ← list_accounts w access_token;
  if negb (truthy accounts) then
    print [Lit "No accounts found."]
  else
    n ← len accounts;
    print [Lit "Found "; Num n; Lit " account(s)"];;
    items ← iter accounts;
    counters ← for_each items (process_account w access_token) (0, 0);
    print_summary counters.1 counters.2.

(** The three numbers of the summary a run ended with, read back from
    the end of its standard output. *)
Definition reported (out : list text) : option (Z * Z * Z) :=
  match rev out with
  | [Lit r] :: [Lit lf; Num f] :: [Lit ld; Num d] :: [Lit lt; Num t]
      :: [Lit ls] :: _ =>
      if String.eqb r rule
         && String.eqb ls "Summary:"
         && String.eqb lf "  Failed to delete: "
         && String.eqb ld "  Successfully deleted: "
         && String.eqb lt "  Total webhooks found: "
      then Some (t, d, f) else None
  | _ => None
  end.

End Delete.

(** ** urllib.parse.urlparse, as far as [main] looks at it *)

(** [main] reads a single attribute of the parse result, [netloc], and
    catches whatever [urlparse] raises.  The registration tool is
    therefore modelled over any function from a URL to either the message
    of the exception raised or the network location found.

    [urllib_urlparse] below follows the standard library's [urlsplit] up
    to the point where [netloc] is known: leading control characters and
    spaces are stripped, tabs and line breaks removed, a scheme is split
    off at the first colon, and the network location is what stands
    between a leading [//] and the next [/], [?] or [#]; unbalanced
    square brackets raise [ValueError].  The checks that newer versions
    of the library make after that, on the syntax of a bracketed host
    and on the normal form of a non-ASCII network location, both of
    which raise [ValueError] as well, are left out. *)

Definition code (c : ascii) : nat := nat_of_ascii c.

Definition c0_control_or_space (c : ascii) : bool := (code c <=? 32)%nat.

Definition unsafe_url_byte (c : ascii) : bool :=
  (code c =? 9)%nat || (code c =? 10)%nat || (code c =? 13)%nat.

Definition ascii_alpha (c : ascii) : bool :=
  ((65 <=? code c) && (code c <=? 90))%nat
  || ((97 <=? code c) && (code c <=? 122))%nat.

Definition ascii_digit (c : ascii) : bool :=
  ((48 <=? code c) && (code c <=? 57))%nat.

(** [scheme_chars]: letters, digits and [+-.] *)
Definition scheme_char (c : ascii) : bool :=
  ascii_alpha c || ascii_digit c
  || (code c =? 43)%nat || (code c =? 45)%nat || (code c =? 46)%nat.

Definition netloc_delimiter (c : ascii) : bool :=
  (code c =? 47)%nat || (code c =? 63)%nat || (code c =? 35)%nat.

Fixpoint lstrip (drop : ascii → bool) (s : string) : string :=
  match s with
  | String c s' => if drop c then lstrip drop s' else s
  | EmptyString => EmptyString
  end.

Fixpoint remove (drop : ascii → bool) (s : string) : string :=
  match s with
  | String c s' => if drop c then remove drop s' else String c (remove drop s')
  | EmptyString => EmptyString
  end.

(** The part of [s] before the first character satisfying [stop], and
    the rest from that character on. *)
Fixpoint break (stop : ascii → bool) (s : string) : string * string :=
  match s with
  | String c s' =>
      if stop c then (EmptyString, s)
      else let '(a, b) := break stop s' in (String c a, b)
  | EmptyString => (EmptyString, EmptyString)
  end.

Fixpoint all_chars (f : ascii → bool) (s : string) : bool :=
  match s with
  | String c s' => f c && all_chars f s'
  | EmptyString => true
  end.

Definition has_char (n : nat) (s : string) : bool :=
  negb (all_chars (λ c, negb (code c =? n)%nat) s).

(** The URL with its scheme and colon taken off, when it has a scheme. *)
Definition drop_scheme (url : string) : string :=
  match break (λ c, (code c =? 58)%nat) url with
  | (String c0 pre, String _ rest) =>
      if ascii_alpha c0 && all_chars scheme_char (String c0 pre)
      then rest else url
  | _ => url
  end.

Definition urllib_urlparse (url : string) : string + string :=
  let url := remove unsafe_url_byte (lstrip c0_control_or_space url) in
  match drop_scheme url with
  | String s1 (String s2 rest) =>
      if (code s1 =? 47)%nat && (code s2 =? 47)%nat then
        let netloc := (break netloc_delimiter rest).1 in
        if xorb (has_char 91 netloc) (has_char 93 netloc)
        then inl "Invalid IPv6 URL"
        else inr netloc
      else inr ""
  | _ => inr ""
  end.

(** ** register_webhooks.py *)
Module Register.

Definition REQUEST_TIMEOUT : Z := 30.

Definition get_access_token (w : world) : M string :=
  let token := environ w !! "MONZO_ACCESS_TOKEN" in
  if negb (truthy (from_option VStr VNone token)) then
    eprint [Lit "Error: MONZO_ACCESS_TOKEN environment variable is not set"];;
    eprint [Lit (NL ++ "Please set your Monzo access token:")];;
    eprint [Lit "  export MONZO_ACCESS_TOKEN=your_token_here"];;
    sys_exit 1
  else mret (default "" token).

Definition accounts_request (access_token : string) : request :=
  Request GET [Lit (MONZO_API_BASE ++ "/accounts")] (bearer access_token)
    [] [] (Some REQUEST_TIMEOUT).

Definition list_accounts (w : world) (access_token : string) : M value :=
  r ← checked_json w (accounts_request access_token);
  match r with
  | inr data => dict_get data "accounts" (VList [])
  | inl e =>
      eprint [Lit "Error listing accounts: "; Lit (exc_str e)];;
      sys_exit 1
  end.

Definition register_request (access_token : string) (account_id : value)
    (webhook_url : string) : request :=
  Request POST [Lit (MONZO_API_BASE ++ "/webhooks")] (bearer access_token)
    [] [("account_id", account_id); ("url", VStr webhook_url)]
    (Some REQUEST_TIMEOUT).

(** Returns what [response.json()] gave, or [None] after an error. *)
Definition register_webhook (w : world) (access_token : string)
    (account_id : value) (webhook_url : string) : M value :=
  r ← checked_json w (register_request access_token account_id webhook_url);
  match r with
  | inr body => mret body
  | inl e =>
      eprint [Lit "Error registering webhook for account "; Fmt account_id;
              Lit ": "; Lit (exc_str e)];;
      match exc_response e with
      | Some body => eprint [Lit "Response: "; Lit body]
      | None => mret tt
      end;;
      mret VNone
  end.

(** The body of [for account in accounts]; the loop carries
    [(registered_count, failed_count)]. *)
Definition process_account (w : world) (access_token webhook_url : string)
    (account : value) (counters : Z * Z) : M (Z * Z) :=
  let '(registered_count, failed_count) := counters in
  account_id ← dict_get account "id" VNone;
  account_desc ← dict_get account "description" (VStr "Unknown");
  print [Lit (NL ++ "Processing account: "); Fmt account_desc;
         Lit " ("; Fmt account_id; Lit ")"];;
  result ← register_webhook w access_token account_id webhook_url;
  if truthy result then
    webhook ← dict_get result "webhook" (VDict ∅);
    webhook_id ← dict_get webhook "id" (VStr "Unknown");
    print [Lit "  ✓ Successfully registered webhook"];;
    print [Lit "    Webhook ID: "; Fmt webhook_id];;
    mret (registered_count + 1, failed_count)
  else
    print [Lit "  ✗ Failed to register webhook"];;
    mret (registered_count, failed_count + 1).

Definition print_summary (registered_count failed_count : Z) : M unit :=
  print [Lit (NL ++ rule)];;
  print [Lit "Summary:"];;
  print [Lit "  Successfully registered: "; Num registered_count];;
  print [Lit "  Failed to register: "; Num failed_count];;
  print [Lit rule].

(** [webhook_url.startswith(("http://", "https://"))] *)
Definition starts_http (webhook_url : string) : bool :=
  String.prefix "http://" webhook_url || String.prefix "https://" webhook_url.

(** The checks on the command line, before anything is printed to
    standard output: arity, prefix, then the parse inside
    [try ... except Exception]. *)
Definition check_arguments (urlparse : string → string + string)
    (w : world) : M string :=
  (if negb (length (argv w) =? 2)%nat then
     eprint [Lit "Usage: python register_webhooks.py <webhook_url>"];;
     eprint [Lit (NL ++ "Example:")];;
     eprint [Lit "  python register_webhooks.py https://example.com/webhook"];;
     sys_exit 1
   else mret tt);;
  let webhook_url := default "" (argv w !! 1%nat) in
  (if negb (starts_http webhook_url) then
     eprint [Lit "Error: Webhook URL must start with http:// or https://"];;
     sys_exit 1
   else mret tt);;
  match urlparse webhook_url with
  | inr netloc =>
      if negb (truthy (VStr netloc)) then
        eprint [Lit "Error: Invalid webhook URL format"];;
        sys_exit 1
      else mret tt
  | inl e =>
      eprint [Lit "Error: Invalid webhook URL: "; Lit e];;
      sys_exit 1
  end;;
  mret webhook_url.

Definition main (urlparse : string → string + string) (w : world)
  : M unit :=
  webhook_url ← check_arguments urlparse w;
  print [Lit "Monzo Webhook Registration Tool"];;
  print [Lit rule];;
  print [Lit "Webhook URL: "; Lit webhook_url];;
  access_token ← get_access_token w;
  print [Lit (NL ++ "Fetching accounts...")];;
  accounts ← list_accounts w access_token;
  if negb (truthy accounts) then
    print [Lit "No accounts found."]
  else
    n ← len accounts;
    print [Lit "Found "; Num n; Lit " account(s)"];;
    items ← iter accounts;
    counters ←
      for_each items (process_account w access_token webhook_url) (0, 0);
    print_summary counters.1 counters.2.

(** The two numbers of the summary a run ended with. *)
Definition reported (out : list text) : option (Z * Z) :=
  match rev out with
  | [Lit r] :: [Lit lf; Num f] :: [Lit lr; Num g] :: [Lit ls] :: _ =>
      if String.eqb r rule
         && String.eqb lf "  Failed to register: "
         && String.eqb lr "  Successfully registered: "
         && String.eqb ls "Summary:"
      then Some (g, f) else None
  | _ => None
  end.

End Register.

(** * Observations on a run *)

#[local] Open Scope list_scope.

(** The [RequestException] a call ends with before its body is looked
    at: the one [requests] raised, or the [HTTPError] of
    [raise_for_status()] for an error status. *)
Definition failure (a : reply) : option RequestException :=
  match a with
  | Failed e => Some e
  | Replied r => raise_for_status r
  end.

Definition succeeded (a : reply) : bool :=
  match failure a with
  | None => true
  | Some _ => false
  end.

(** The [HTTPError] of a response: [HTTPError(msg, response=self)]. *)
Definition HTTPError (r : Response) : RequestException :=
  {| exc_str := error_message r; exc_response := Some (resp_text r) |}.

(** The two ways a call fails before its body is looked at, with the
    exception raised: [requests] raised it, a transport error, or the
    response has a 4xx or 5xx status and [raise_for_status()] raised. *)
Inductive call_fails : reply → RequestException → Prop :=
| transport_error e : call_fails (Failed e) e
| status_error r :
    (400 ≤ status_code r < 600)%Z → call_fails (Replied r) (HTTPError r).

(** What the three statements of a [try] block, the call,
    [raise_for_status()] and [json()], end with. *)
Definition outcome (a : reply) : RequestException + value :=
  match a with
  | Failed e => inl e
  | Replied r =>
      match raise_for_status r with
      | Some e => inl e
      | None => resp_json r
      end
  end.

(** An exchange answered with a status that [raise_for_status()] lets
    through and a parsed body that is true. *)
Definition accepted (a : reply) : bool :=
  match a with
  | Replied r =>
      match http_error r, resp_json r with
      | None, inr body => truthy body
      | _, _ => false
      end
  | Failed _ => false
  end.

Definition is_delete (x : exchange) : bool :=
  match req_method x.1 with DELETE => true | _ => false end.

Definition is_post (x : exchange) : bool :=
  match req_method x.1 with POST => true | _ => false end.

Definition is_get (x : exchange) : bool :=
  match req_method x.1 with GET => true | _ => false end.

(** How many exchanges of a trace satisfy [f]. *)
Fixpoint count (f : exchange → bool) (tr : list exchange) : Z :=
  match tr with
  | [] => 0
  | x :: tr' => (if f x then 1 else 0) + count f tr'
  end.

(** Deletion attempts that went through, and those that did not. *)
Definition deleted_ok (x : exchange) : bool :=
  is_delete x && succeeded x.2.

Definition delete_failed (x : exchange) : bool :=
  is_delete x && negb (succeeded x.2).

(** Registration attempts answered with a status that
    [raise_for_status()] lets through and a true body, and all the
    others. *)
Definition registered (x : exchange) : bool :=
  is_post x && accepted x.2.

Definition not_registered (x : exchange) : bool :=
  is_post x && negb (accepted x.2).

(** What the account listing, the first exchange of a run, returned. *)
Definition listed_accounts (tr : list exchange) : option value :=
  match tr with
  | (_, Replied r) :: _ =>
      match http_error r, resp_json r with
      | None, inr (VDict o) => Some (default (VList []) (o !! "accounts"))
      | _, _ => None
      end
  | _ => None
  end.

(** The three lines [get_access_token] writes to standard error. *)
Definition credential_remediation : list text :=
  [ [Lit "Error: MONZO_ACCESS_TOKEN environment variable is not set"];
    [Lit (NL ++ "Please set your Monzo access token:")];
    [Lit "  export MONZO_ACCESS_TOKEN=your_token_here"] ].

(** The environment with the credential variable removed. *)
Definition unset_token (w : world) : world :=
  {| environ := delete "MONZO_ACCESS_TOKEN" (environ w);
     argv := argv w;
     server := server w |}.

(** ** Sample worlds *)

Definition ok_json (body : value) : reply :=
  Replied {| status_code := 200; error_message := ""; resp_text := "";
             resp_json := inr body |}.

Definition http_failure (status : Z) (msg body : string) : reply :=
  Replied {| status_code := status; error_message := msg; resp_text := body;
             resp_json := inr VNone |}.

Definition timed_out : reply :=
  Failed {| exc_str := "Read timed out."; exc_response := None |}.

Definition account (id : string) : value :=
  VDict {[ "id" := VStr id; "description" := VStr "Current account" ]}.

Definition webhook (id : string) : value :=
  VDict {[ "id" := VStr id; "url" := VStr "https://example.com/webhook" ]}.

(** Three accounts.  The first has two webhooks, of which the first
    cannot be deleted; listing the webhooks of the others times out.
    Registering works for the first account, is answered by an empty
    object for the second and refused for the third. *)
Definition sample_server (tr : list exchange) (r : request) : reply :=
  match req_method r with
  | GET =>
      match req_params r with
      | [] => ok_json (VDict {[ "accounts" :=
                 VList [account "acc_1"; account "acc_2"; account "acc_3"] ]})
      | [(_, VStr "acc_1")] =>
          ok_json (VDict {[ "webhooks" :=
            VList [webhook "wh_1"; webhook "wh_2"] ]})
      | _ => timed_out
      end
  | DELETE =>
      match req_url r with
      | [_; Fmt (VStr "wh_1")] => http_failure 404 "404 Client Error" "not found"
      | _ => ok_json (VDict ∅)
      end
  | POST =>
      match req_data r with
      | (_, VStr "acc_1") :: _ =>
          ok_json (VDict {[ "webhook" := VDict {[ "id" := VStr "wh_9" ]} ]})
      | (_, VStr "acc_2") :: _ => ok_json (VDict ∅)
      | _ => http_failure 400 "400 Client Error" "bad request"
      end
  end.

Definition sample_world (env : gmap string string) (args : list string)
    (srv : list exchange → request → reply) : world :=
  {| environ := env; argv := args; server := srv |}.

Definition with_token : gmap string string :=
  {[ "MONZO_ACCESS_TOKEN" := "secret" ]}.

Definition good_args : list string :=
  ["register_webhooks.py"; "https://example.com/webhook"].

(** A response with status 300, which is neither a success nor one of
    the statuses [raise_for_status()] raises for. *)
Definition multiple_choices (body : value) : reply :=
  Replied {| status_code := 300; error_message := ""; resp_text := "";
             resp_json := inr body |}.

(** The sample server, except that it answers the account listing, the
    webhook listing of the first account and the registration for the
    first account with status 300. *)
Definition status_300_server (tr : list exchange) (r : request) : reply :=
  match req_method r with
  | GET =>
      match req_params r with
      | [] => multiple_choices (VDict {[ "accounts" :=
                 VList [account "acc_1"; account "acc_2"; account "acc_3"] ]})
      | [(_, VStr "acc_1")] =>
          multiple_choices (VDict {[ "webhooks" :=
            VList [webhook "wh_1"; webhook "wh_2"] ]})
      | _ => timed_out
      end
  | DELETE =>
      match req_url r with
      | [_; Fmt (VStr "wh_1")] => http_failure 404 "404 Client Error" "not found"
      | _ => ok_json (VDict ∅)
      end
  | POST =>
      match req_data r with
      | (_, VStr "acc_1") :: _ =>
          multiple_choices
            (VDict {[ "webhook" := VDict {[ "id" := VStr "wh_9" ]} ]})
      | (_, VStr "acc_2") :: _ => ok_json (VDict ∅)
      | _ => http_failure 400 "400 Client Error" "bad request"
      end
  end.

(** A server that answers every call with status 200 and an object
    whose [webhook] entry is [null]. *)
Definition null_webhook_server (tr : list exchange) (r : request) : reply :=
  ok_json (VDict {[ "webhook" := VNone ]}).

(** A user without accounts. *)
Definition no_accounts_server (tr : list exchange) (r : request) : reply :=
  ok_json (VDict {[ "accounts" := VList [] ]}).

(** A network that is down. *)
Definition dead_server (tr : list exchange) (r : request) : reply :=
  timed_out.

(** ** Invariants of a run *)

(** A line made of a label and a number, as the counter lines of the two
    summaries are. *)
Definition count_line (l : text) : bool :=
  match l with
  | [Lit _; Num _] => true
  | _ => false
  end.

(** Every line printed so far satisfies [Pout] and every request made so
    far satisfies [Preq]. *)
Definition inv (Pout : text → Prop) (Preq : request → Prop) (p : proc)
  : Prop :=
  Forall Pout (stdout p) ∧ Forall (λ x : exchange, Preq x.1) (trace p).

(** A computation that keeps the invariant however it ends, and that
    leaves through [sys.exit] with status 1 only. *)
Definition keeps (Pout : text → Prop) (Preq : request → Prop) {A}
    (m : M A) : Prop :=
  ∀ p, inv Pout Preq p →
       inv Pout Preq (m p).2 ∧ ∀ c, (m p).1 = Exit c → c = 1.

(** The three requests of the deletion tool, written out: the account
    listing, the webhook listing of an account and the deletion of a
    webhook, each with the token as its bearer credential, no body and
    no timeout. *)
Definition deletion_request (tok : string) (r : request) : Prop :=
  r = Request GET [Lit "https://api.monzo.com/accounts"]
        [("Authorization", "Bearer " ++ tok)%string] [] [] None
  ∨ (∃ account_id,
        r = Request GET [Lit "https://api.monzo.com/webhooks"]
              [("Authorization", "Bearer " ++ tok)%string]
              [("account_id", account_id)] [] None)
  ∨ (∃ webhook_id,
        r = Request DELETE
              [Lit "https://api.monzo.com/webhooks/"; Fmt webhook_id]
              [("Authorization", "Bearer " ++ tok)%string] [] [] None).

(** The two requests of the registration tool, written out: the account
    listing and the registration of the URL for an account, each with
    the token as its bearer credential and the 30 second timeout. *)
Definition registration_request (tok url : string) (r : request) : Prop :=
  r = Request GET [Lit "https://api.monzo.com/accounts"]
        [("Authorization", "Bearer " ++ tok)%string] [] [] (Some 30)
  ∨ (∃ account_id,
        r = Request POST [Lit "https://api.monzo.com/webhooks"]
              [("Authorization", "Bearer " ++ tok)%string] []
              [("account_id", account_id); ("url", VStr url)] (Some 30)).

(** [x.get("id")] on an item of a listing. *)
Definition get_id (x : value) : value :=
  match x with
  | VDict o => default VNone (o !! "id")
  | _ => VNone
  end.

(** The webhooks a listing exchange gave the deletion loop to go through. *)
Definition webhooks_of (a : reply) : list value :=
  match outcome a with
  | inr (VDict data) =>
      match default (VList []) (data !! "webhooks") with
      | VList webhooks => webhooks
      | _ => []
      end
  | _ => []
  end.

(** An exchange of the deletion tool that ended in a [RequestException]:
    a deletion is over after [raise_for_status()], a listing after
    [json()]. *)
Definition raised (x : exchange) : bool :=
  match req_method x.1 with
  | DELETE => negb (succeeded x.2)
  | _ => match outcome x.2 with inl _ => true | inr _ => false end
  end.

(** A server whose account listing is not a JSON object. *)
Definition array_server (tr : list exchange) (r : request) : reply :=
  ok_json (VList [account "acc_1"]).

(** * Properties *)

(** ** Laws of the process monad *)

Section laws.
Context {A B : Type} (k : A → M B) (p : proc).

Lemma bind_mret a : (mret a ≫= k) p = k a p.
Proof. reflexivity. Qed.

Lemma bind_sys_exit c : (sys_exit c ≫= k) p = (Exit c, p).
Proof. reflexivity. Qed.

Lemma bind_raise e : (raise e ≫= k) p = (Raise e, p).
Proof. reflexivity. Qed.

Lemma bind_assoc {C} (m : M C) (f : C → M A) :
  ((m ≫= f) ≫= k) p = (m ≫= (λ c, f c ≫= k)) p.
Proof.
  unfold mbind, M_bind. destruct (m p) as [[c|c|e] p1]; reflexivity.
Qed.

Lemma bind_eq (m : M A) a p1 : m p = (Ret a, p1) → (m ≫= k) p = k a p1.
Proof. intros H. unfold mbind, M_bind. by rewrite H. Qed.

Lemma bind_exit (m : M A) c p1 :
  m p = (Exit c, p1) → (m ≫= k) p = (Exit c, p1).
Proof. intros H. unfold mbind, M_bind. by rewrite H. Qed.

Lemma bind_Ret_inv (m : M A) b p' :
  (m ≫= k) p = (Ret b, p') →
  ∃ a p1, m p = (Ret a, p1) ∧ k a p1 = (Ret b, p').
Proof.
  unfold mbind, M_bind. destruct (m p) as [[a|c|e] p1]; [eauto|done..].
Qed.
End laws.

Section output_laws.
Context {B : Type} (k : unit → M B) (p : proc).

Lemma bind_print t :
  (print t ≫= k) p = k tt (Proc (stdout p ++ [t]) (stderr p) (trace p)).
Proof. reflexivity. Qed.

Lemma bind_eprint t :
  (eprint t ≫= k) p = k tt (Proc (stdout p) (stderr p ++ [t]) (trace p)).
Proof. reflexivity. Qed.
End output_laws.

Lemma bind_send {B} w r (k : reply → M B) p :
  (send w r ≫= k) p
  = k (server w (trace p) r)
      (Proc (stdout p) (stderr p) (trace p ++ [(r, server w (trace p) r)])).
Proof. reflexivity. Qed.

(** One step of symbolic execution. *)
Ltac mstep :=
  first [ rewrite bind_assoc | rewrite bind_mret | rewrite bind_print
        | rewrite bind_eprint | rewrite bind_send | rewrite bind_sys_exit
        | rewrite bind_raise ];
  cbn [stdout stderr trace].

Ltac mrun := repeat mstep.

(** ** The credential *)

Lemma not_truthy_token (token : option string) :
  truthy (from_option VStr VNone token) = false ↔ token = None ∨ token = Some "".
Proof.
  destruct token as [s|]; simpl; [|by intuition].
  destruct (String.eqb_spec s ""); simpl; [subst; by intuition|].
  split; [done|]. intros [|]; congruence.
Qed.

Lemma delete_token_present w tok p :
  environ w !! "MONZO_ACCESS_TOKEN" = Some tok → tok ≠ "" →
  Delete.get_access_token w p = (Ret tok, p).
Proof.
  intros H Hne. unfold Delete.get_access_token. rewrite H. simpl.
  by destruct (String.eqb_spec tok "").
Qed.

Lemma register_token_present w tok p :
  environ w !! "MONZO_ACCESS_TOKEN" = Some tok → tok ≠ "" →
  Register.get_access_token w p = (Ret tok, p).
Proof.
  intros H Hne. unfold Register.get_access_token. rewrite H. simpl.
  by destruct (String.eqb_spec tok "").
Qed.

Lemma delete_token_absent w p :
  truthy (from_option VStr VNone (environ w !! "MONZO_ACCESS_TOKEN")) = false →
  Delete.get_access_token w p
  = (Exit 1, Proc (stdout p) (stderr p ++ credential_remediation) (trace p)).
Proof.
  intros H. unfold Delete.get_access_token. rewrite H. simpl. mrun.
  unfold sys_exit. by rewrite <- !app_assoc.
Qed.

Lemma register_token_absent w p :
  truthy (from_option VStr VNone (environ w !! "MONZO_ACCESS_TOKEN")) = false →
  Register.get_access_token w p
  = (Exit 1, Proc (stdout p) (stderr p ++ credential_remediation) (trace p)).
Proof.
  intros H. unfold Register.get_access_token. rewrite H. simpl. mrun.
  unfold sys_exit. by rewrite <- !app_assoc.
Qed.

(** A token that was returned is the non-empty value of the variable. *)
Lemma delete_token_inv w p tok p' :
  Delete.get_access_token w p = (Ret tok, p') →
  environ w !! "MONZO_ACCESS_TOKEN" = Some tok ∧ tok ≠ "" ∧ p' = p.
Proof.
  unfold Delete.get_access_token.
  destruct (environ w !! "MONZO_ACCESS_TOKEN") as [s|] eqn:E; simpl.
  - destruct (String.eqb_spec s ""); simpl; [by mrun|].
    intros [= -> ->]. done.
  - by mrun.
Qed.

Lemma register_token_inv w p tok p' :
  Register.get_access_token w p = (Ret tok, p') →
  environ w !! "MONZO_ACCESS_TOKEN" = Some tok ∧ tok ≠ "" ∧ p' = p.
Proof.
  unfold Register.get_access_token.
  destruct (environ w !! "MONZO_ACCESS_TOKEN") as [s|] eqn:E; simpl.
  - destruct (String.eqb_spec s ""); simpl; [by mrun|].
    intros [= -> ->]. done.
  - by mrun.
Qed.

(** ** The command line of the registration tool *)

(** No line of the argument errors is a line of the credential error. *)
Ltac other_lines :=
  repeat constructor; unfold credential_remediation;
  rewrite !elem_of_cons, elem_of_nil;
  intros [?|[?|[?|[]]]]; discriminate.

(** The checks either let the URL through and leave the process as it
    was, or end it with status 1 after writing to standard error only. *)
Lemma check_arguments_cases urlparse w p :
  (∃ prog url netloc,
      argv w = [prog; url] ∧ Register.starts_http url = true
      ∧ urlparse url = inr netloc ∧ netloc ≠ ""
      ∧ Register.check_arguments urlparse w p = (Ret url, p))
  ∨ (∃ errs,
      errs ≠ []
      ∧ Forall (λ l, l ∉ credential_remediation) errs
      ∧ Register.check_arguments urlparse w p
        = (Exit 1, Proc (stdout p) (stderr p ++ errs) (trace p))).
Proof.
  unfold Register.check_arguments.
  destruct (argv w) as [|prog [|url [|x rest]]] eqn:Hargv; simpl.
  1,2,4: right; eexists; split; [|split; [|mrun; unfold sys_exit;
           rewrite <- !app_assoc; reflexivity]]; [done|other_lines].
  mrun. destruct (Register.starts_http url) eqn:Hs; simpl.
  - mrun. destruct (urlparse url) as [msg|netloc] eqn:Hu.
    + right. eexists. split; [|split; [|mrun; reflexivity]]; [done|].
      other_lines.
    + simpl. destruct (String.eqb_spec netloc ""); simpl.
      * right. eexists. split; [|split; [|mrun; reflexivity]]; [done|].
        other_lines.
      * left. exists prog, url, netloc. by mrun.
  - right. eexists. split; [|split; [|mrun; reflexivity]]; [done|].
    other_lines.
Qed.

Lemma check_arguments_inv urlparse w p url p' :
  Register.check_arguments urlparse w p = (Ret url, p') → p' = p.
Proof.
  intros H.
  destruct (check_arguments_cases urlparse w p)
    as [(? & ? & ? & _ & _ & _ & _ & E)|(? & _ & _ & E)]; congruence.
Qed.

(** ** Listing the accounts *)

Lemma delete_listing_fails w tok p e :
  failure (server w (trace p) (Delete.accounts_request tok)) = Some e →
  Delete.list_accounts w tok p
  = (Exit 1,
     Proc (stdout p)
          (stderr p ++ [[Lit "Error listing accounts: "; Lit (exc_str e)]])
          (trace p ++ [(Delete.accounts_request tok,
                        server w (trace p) (Delete.accounts_request tok))])).
Proof.
  intros Hf. unfold Delete.list_accounts, checked_json, checked. mrun.
  destruct (server w _ _) as [e'|r]; simpl in Hf |- *.
  - by injection Hf as ->.
  - by rewrite Hf.
Qed.

Lemma register_listing_fails w tok p e :
  failure (server w (trace p) (Register.accounts_request tok)) = Some e →
  Register.list_accounts w tok p
  = (Exit 1,
     Proc (stdout p)
          (stderr p ++ [[Lit "Error listing accounts: "; Lit (exc_str e)]])
          (trace p ++ [(Register.accounts_request tok,
                        server w (trace p) (Register.accounts_request tok))])).
Proof.
  intros Hf. unfold Register.list_accounts, checked_json, checked. mrun.
  destruct (server w _ _) as [e'|r]; simpl in Hf |- *.
  - by injection Hf as ->.
  - by rewrite Hf.
Qed.

(** A listing that went through gives the [accounts] entry of the body,
    an empty list when there is none. *)
Lemma delete_listing_ok w tok p r o :
  server w (trace p) (Delete.accounts_request tok) = Replied r →
  http_error r = None → resp_json r = inr (VDict o) →
  Delete.list_accounts w tok p
  = (Ret (default (VList []) (o !! "accounts")),
     Proc (stdout p) (stderr p)
          (trace p ++ [(Delete.accounts_request tok, Replied r)])).
Proof.
  intros Hs He Hj. unfold Delete.list_accounts, checked_json, checked. mrun.
  rewrite Hs. unfold raise_for_status. rewrite He. simpl. by rewrite Hj.
Qed.

Lemma register_listing_ok w tok p r o :
  server w (trace p) (Register.accounts_request tok) = Replied r →
  http_error r = None → resp_json r = inr (VDict o) →
  Register.list_accounts w tok p
  = (Ret (default (VList []) (o !! "accounts")),
     Proc (stdout p) (stderr p)
          (trace p ++ [(Register.accounts_request tok, Replied r)])).
Proof.
  intros Hs He Hj. unfold Register.list_accounts, checked_json, checked. mrun.
  rewrite Hs. unfold raise_for_status. rewrite He. simpl. by rewrite Hj.
Qed.

(** Conversely, a listing that returned a value went through. *)
Lemma delete_listing_inv w tok p accounts p' :
  Delete.list_accounts w tok p = (Ret accounts, p') →
  ∃ r o, server w (trace p) (Delete.accounts_request tok) = Replied r
         ∧ http_error r = None ∧ resp_json r = inr (VDict o)
         ∧ accounts = default (VList []) (o !! "accounts")
         ∧ p' = Proc (stdout p) (stderr p)
                  (trace p ++ [(Delete.accounts_request tok, Replied r)]).
Proof.
  unfold Delete.list_accounts, checked_json, checked. mrun.
  destruct (server w _ _) as [e|r]; simpl; [by mrun|].
  unfold raise_for_status. destruct (http_error r) eqn:He; simpl; [by mrun|].
  destruct (resp_json r) as [e|[]] eqn:Hj; simpl; try by mrun.
  intros [= <- <-]. by exists r, o.
Qed.

Lemma register_listing_inv w tok p accounts p' :
  Register.list_accounts w tok p = (Ret accounts, p') →
  ∃ r o, server w (trace p) (Register.accounts_request tok) = Replied r
         ∧ http_error r = None ∧ resp_json r = inr (VDict o)
         ∧ accounts = default (VList []) (o !! "accounts")
         ∧ p' = Proc (stdout p) (stderr p)
                  (trace p ++ [(Register.accounts_request tok, Replied r)]).
Proof.
  unfold Register.list_accounts, checked_json, checked. mrun.
  destruct (server w _ _) as [e|r]; simpl; [by mrun|].
  unfold raise_for_status. destruct (http_error r) eqn:He; simpl; [by mrun|].
  destruct (resp_json r) as [e|[]] eqn:Hj; simpl; try by mrun.
  intros [= <- <-]. by exists r, o.
Qed.

(** A call fails in one of the two ways exactly when the [try] block is
    left with that exception before the body is looked at. *)
Lemma call_fails_failure a e : call_fails a e ↔ failure a = Some e.
Proof.
  split.
  - intros [e'|r Hr]; simpl; [done|].
    unfold raise_for_status, http_error, error_status.
    destruct (Z.leb_spec 400 (status_code r)); [|lia].
    destruct (Z.ltb_spec (status_code r) 600); [|lia]. done.
  - destruct a as [e'|r]; simpl.
    + intros [= ->]. constructor.
    + unfold raise_for_status, http_error, error_status.
      destruct (Z.leb_spec 400 (status_code r)); [|done].
      destruct (Z.ltb_spec (status_code r) 600); [|done].
      intros [= <-]. by apply status_error.
Qed.

(** C6, as amended: when the account listing fails with a transport
    error or with a 4xx or 5xx status, the statuses for which
    [raise_for_status()] raises, either tool logs the error to standard
    error and exits with status 1; the listing is the only HTTP exchange
    of the run, so no webhook is listed, deleted or registered. *)
Theorem account_listing_failure_is_fatal w tok :
  environ w !! "MONZO_ACCESS_TOKEN" = Some tok → tok ≠ "" →
  (∀ e,
      call_fails (server w [] (Delete.accounts_request tok)) e →
      Delete.main w init
      = (Exit 1,
         Proc [ [Lit "Monzo Webhook Deletion Tool"]; [Lit rule];
                [Lit (NL ++ "Fetching accounts...")] ]
              [ [Lit "Error listing accounts: "; Lit (exc_str e)] ]
              [ (Delete.accounts_request tok,
                 server w [] (Delete.accounts_request tok)) ]))
  ∧ (∀ urlparse url e,
      Register.check_arguments urlparse w init = (Ret url, init) →
      call_fails (server w [] (Register.accounts_request tok)) e →
      Register.main urlparse w init
      = (Exit 1,
         Proc [ [Lit "Monzo Webhook Registration Tool"]; [Lit rule];
                [Lit "Webhook URL: "; Lit url];
                [Lit (NL ++ "Fetching accounts...")] ]
              [ [Lit "Error listing accounts: "; Lit (exc_str e)] ]
              [ (Register.accounts_request tok,
                 server w [] (Register.accounts_request tok)) ])).
Proof.
  intros Htok Hne. split.
  - intros e Hf. apply call_fails_failure in Hf. unfold Delete.main. mrun.
    rewrite (bind_eq _ _ _ _ _ (delete_token_present _ _ _ Htok Hne)). mrun.
    erewrite bind_exit by (apply delete_listing_fails; exact Hf). done.
  - intros urlparse url e Hargs Hf. apply call_fails_failure in Hf.
    unfold Register.main.
    rewrite (bind_eq _ _ _ _ _ Hargs). mrun.
    rewrite (bind_eq _ _ _ _ _ (register_token_present _ _ _ Htok Hne)). mrun.
    erewrite bind_exit by (apply register_listing_fails; exact Hf). done.
Qed.

Lemma account_listing_failure_is_fatal_witness :
  let w := sample_world with_token good_args dead_server in
  (Delete.main w init).1 = Exit 1
  ∧ length (trace (Delete.main w init).2) = 1%nat
  ∧ (Register.main urllib_urlparse w init).1 = Exit 1
  ∧ length (trace (Register.main urllib_urlparse w init).2) = 1%nat.
Proof.
  intros w.
  destruct (account_listing_failure_is_fatal w "secret") as [Hd Hr];
    [reflexivity | discriminate |].
  rewrite (Hd {| exc_str := "Read timed out."; exc_response := None |});
    [|apply transport_error].
  rewrite (Hr urllib_urlparse "https://example.com/webhook"
             {| exc_str := "Read timed out."; exc_response := None |});
    [|reflexivity|apply transport_error].
  repeat split.
Defined.

(** C6 as stated fails: an account listing answered with status 300 is
    not a 2xx response, yet neither tool treats it as fatal: both go on
    to the webhook calls and return from [main], with exit status 0. *)
Lemma account_listing_with_status_300_is_not_fatal :
  let w := sample_world with_token good_args status_300_server in
  match server w [] (Delete.accounts_request "secret") with
  | Replied r => status_code r = 300
  | Failed _ => False
  end
  ∧ (Delete.main w init).1 = Ret tt
  ∧ count is_delete (trace (Delete.main w init).2) = 2
  ∧ match server w [] (Register.accounts_request "secret") with
    | Replied r => status_code r = 300
    | Failed _ => False
    end
  ∧ (Register.main urllib_urlparse w init).1 = Ret tt
  ∧ count is_post (trace (Register.main urllib_urlparse w init).2) = 3.
Proof. intros w. repeat split; vm_compute; reflexivity. Qed.

(** ** Runs without a usable credential *)

Lemma runs_without_token w :
  truthy (from_option VStr VNone (environ w !! "MONZO_ACCESS_TOKEN")) = false →
  Delete.main w init
  = (Exit 1,
     Proc [ [Lit "Monzo Webhook Deletion Tool"]; [Lit rule] ]
          credential_remediation [])
  ∧ (∀ urlparse url,
      Register.check_arguments urlparse w init = (Ret url, init) →
      Register.main urlparse w init
      = (Exit 1,
         Proc [ [Lit "Monzo Webhook Registration Tool"]; [Lit rule];
                [Lit "Webhook URL: "; Lit url] ]
              credential_remediation []))
  ∧ (∀ urlparse,
      (Register.main urlparse w init).1 = Exit 1
      ∧ stderr (Register.main urlparse w init).2 ≠ []
      ∧ trace (Register.main urlparse w init).2 = []).
Proof.
  intros Hno.
  assert (∀ urlparse url,
      Register.check_arguments urlparse w init = (Ret url, init) →
      Register.main urlparse w init
      = (Exit 1,
         Proc [ [Lit "Monzo Webhook Registration Tool"]; [Lit rule];
                [Lit "Webhook URL: "; Lit url] ]
              credential_remediation [])) as Hreg.
  { intros urlparse url Hargs. unfold Register.main.
    rewrite (bind_eq _ _ _ _ _ Hargs). mrun.
    erewrite bind_exit by (by apply register_token_absent). done. }
  split; [|split; [done|]].
  - unfold Delete.main. mrun.
    erewrite bind_exit by (by apply delete_token_absent). done.
  - intros urlparse.
    destruct (check_arguments_cases urlparse w init)
      as [(prog & url & netloc & _ & _ & _ & _ & E)|(errs & Hne & _ & E)].
    + by rewrite (Hreg _ _ E).
    + unfold Register.main. rewrite (bind_exit _ _ _ _ _ E). simpl.
      by destruct errs.
Qed.

(** C7, as amended: with the credential variable unset, the deletion
    tool, and the registration tool once its command line has passed the
    argument checks, exit with status 1 after printing the remediation
    text to standard error, without any HTTP call.  The registration tool
    checks its command line first: whatever the arguments, it exits with
    status 1, writes to standard error and makes no HTTP call. *)
Theorem missing_credential w :
  environ w !! "MONZO_ACCESS_TOKEN" = None →
  Delete.main w init
  = (Exit 1,
     Proc [ [Lit "Monzo Webhook Deletion Tool"]; [Lit rule] ]
          credential_remediation [])
  ∧ (∀ urlparse url,
      Register.check_arguments urlparse w init = (Ret url, init) →
      Register.main urlparse w init
      = (Exit 1,
         Proc [ [Lit "Monzo Webhook Registration Tool"]; [Lit rule];
                [Lit "Webhook URL: "; Lit url] ]
              credential_remediation []))
  ∧ (∀ urlparse,
      (Register.main urlparse w init).1 = Exit 1
      ∧ stderr (Register.main urlparse w init).2 ≠ []
      ∧ trace (Register.main urlparse w init).2 = []).
Proof. intros H. apply runs_without_token. by rewrite H. Qed.

Lemma missing_credential_witness :
  let w := sample_world ∅ good_args sample_server in
  stderr (Delete.main w init).2 = credential_remediation
  ∧ stderr (Register.main urllib_urlparse w init).2 = credential_remediation.
Proof.
  intros w.
  destruct (missing_credential w) as (Hd & Hr & _); [reflexivity|].
  rewrite Hd.
  by rewrite (Hr urllib_urlparse "https://example.com/webhook").
Defined.

(** C7 as stated fails: called with a URL that is not http(s) and no
    credential, the registration tool exits on the URL and prints none
    of the remediation text. *)
Lemma argument_error_hides_missing_credential :
  let w := sample_world ∅ ["register_webhooks.py"; "ftp://x.com/hook"]
             sample_server in
  environ w !! "MONZO_ACCESS_TOKEN" = None
  ∧ Register.main urllib_urlparse w init
    = (Exit 1,
       Proc [] [ [Lit "Error: Webhook URL must start with http:// or https://"] ]
            [])
  ∧ Forall (λ l, l ∉ stderr (Register.main urllib_urlparse w init).2)
      credential_remediation.
Proof.
  intros w. split; [reflexivity|].
  assert (Register.main urllib_urlparse w init
          = (Exit 1,
             Proc [] [ [Lit "Error: Webhook URL must start with http:// or https://"] ]
                  [])) as E by reflexivity.
  split; [exact E|]. rewrite E. simpl.
  repeat constructor;
    rewrite elem_of_cons, elem_of_nil; intros [?|[]]; discriminate.
Qed.

(** C9, as amended: an empty credential variable is treated exactly like
    an unset one, the whole run is the same; the deletion tool, and the
    registration tool once its command line has passed the argument
    checks, print the remediation text to standard error and exit with
    status 1, and no request is made, so the empty string never serves
    as a bearer token. *)
Theorem empty_credential w :
  environ w !! "MONZO_ACCESS_TOKEN" = Some "" →
  Delete.main w init = Delete.main (unset_token w) init
  ∧ (∀ urlparse,
      Register.main urlparse w init
      = Register.main urlparse (unset_token w) init
      ∧ (Register.main urlparse w init).1 = Exit 1
      ∧ trace (Register.main urlparse w init).2 = [])
  ∧ Delete.main w init
    = (Exit 1,
       Proc [ [Lit "Monzo Webhook Deletion Tool"]; [Lit rule] ]
            credential_remediation [])
  ∧ (∀ urlparse url,
      Register.check_arguments urlparse w init = (Ret url, init) →
      Register.main urlparse w init
      = (Exit 1,
         Proc [ [Lit "Monzo Webhook Registration Tool"]; [Lit rule];
                [Lit "Webhook URL: "; Lit url] ]
              credential_remediation [])).
Proof.
  intros H.
  destruct (runs_without_token w) as (Hd & Hr & Ha); [by rewrite H|].
  destruct (runs_without_token (unset_token w)) as (Hd' & Hr' & _).
  { simpl. by rewrite lookup_delete_eq. }
  split; [congruence|]. split; [|done].
  intros urlparse. split; [|by destruct (Ha urlparse) as (? & _ & ?)].
  destruct (check_arguments_cases urlparse w init)
    as [(prog & url & netloc & _ & _ & _ & _ & E)|(errs & _ & _ & E)].
  - rewrite (Hr _ _ E). symmetry. by apply Hr'.
  - unfold Register.main.
    rewrite (bind_exit _ _ _ _ _ E).
    by rewrite (bind_exit _ _ _ _ _ (E : Register.check_arguments urlparse
                                           (unset_token w) init = _)).
Qed.

Lemma empty_credential_witness :
  let w := sample_world {[ "MONZO_ACCESS_TOKEN" := "" ]} good_args
             sample_server in
  Delete.main w init = Delete.main (unset_token w) init
  ∧ stderr (Delete.main w init).2 = credential_remediation
  ∧ stderr (Register.main urllib_urlparse w init).2 = credential_remediation.
Proof.
  intros w.
  destruct (empty_credential w) as (He & _ & Hd & Hr); [reflexivity|].
  split; [exact He|]. rewrite Hd.
  by rewrite (Hr urllib_urlparse "https://example.com/webhook").
Defined.

(** C9 as stated fails: with an empty credential and no URL on the
    command line, the registration tool prints its usage and none of the
    remediation text. *)
Lemma usage_error_hides_empty_credential :
  let w := sample_world {[ "MONZO_ACCESS_TOKEN" := "" ]}
             ["register_webhooks.py"] sample_server in
  environ w !! "MONZO_ACCESS_TOKEN" = Some ""
  ∧ Register.main urllib_urlparse w init
    = (Exit 1,
       Proc []
         [ [Lit "Usage: python register_webhooks.py <webhook_url>"];
           [Lit (NL ++ "Example:")];
           [Lit "  python register_webhooks.py https://example.com/webhook"] ]
         [])
  ∧ Forall (λ l, l ∉ stderr (Register.main urllib_urlparse w init).2)
      credential_remediation.
Proof.
  intros w. split; [reflexivity|].
  assert (Register.main urllib_urlparse w init
          = (Exit 1,
             Proc []
               [ [Lit "Usage: python register_webhooks.py <webhook_url>"];
                 [Lit (NL ++ "Example:")];
                 [Lit "  python register_webhooks.py https://example.com/webhook"] ]
               [])) as E by reflexivity.
  split; [exact E|]. rewrite E. simpl.
  repeat constructor;
    rewrite !elem_of_cons, elem_of_nil;
    intros [?|[?|[?|[]]]]; discriminate.
Qed.

(** ** A user without accounts *)

(** C2, as amended: when the account listing returns no account, either
    tool prints its no-accounts message and returns from [main]: the
    listing is the only HTTP exchange, nothing is written to standard
    error, no summary is printed, and the exit status is 0. *)
Theorem no_accounts_ends_run w tok :
  environ w !! "MONZO_ACCESS_TOKEN" = Some tok → tok ≠ "" →
  (∀ r o,
      server w [] (Delete.accounts_request tok) = Replied r →
      http_error r = None → resp_json r = inr (VDict o) →
      default (VList []) (o !! "accounts") = VList [] →
      Delete.main w init
      = (Ret tt,
         Proc [ [Lit "Monzo Webhook Deletion Tool"]; [Lit rule];
                [Lit (NL ++ "Fetching accounts...")];
                [Lit "No accounts found."] ]
              []
              [ (Delete.accounts_request tok, Replied r) ])
      ∧ exit_status (Delete.main w init).1 = 0)
  ∧ (∀ urlparse url r o,
      Register.check_arguments urlparse w init = (Ret url, init) →
      server w [] (Register.accounts_request tok) = Replied r →
      http_error r = None → resp_json r = inr (VDict o) →
      default (VList []) (o !! "accounts") = VList [] →
      Register.main urlparse w init
      = (Ret tt,
         Proc [ [Lit "Monzo Webhook Registration Tool"]; [Lit rule];
                [Lit "Webhook URL: "; Lit url];
                [Lit (NL ++ "Fetching accounts...")];
                [Lit "No accounts found."] ]
              []
              [ (Register.accounts_request tok, Replied r) ])
      ∧ exit_status (Register.main urlparse w init).1 = 0).
Proof.
  intros Htok Hne. split.
  - intros r o Hs He Hj Hempty.
    assert (Delete.main w init
      = (Ret tt,
         Proc [ [Lit "Monzo Webhook Deletion Tool"]; [Lit rule];
                [Lit (NL ++ "Fetching accounts...")];
                [Lit "No accounts found."] ]
              []
              [ (Delete.accounts_request tok, Replied r) ])) as E.
    { unfold Delete.main. mrun.
      rewrite (bind_eq _ _ _ _ _ (delete_token_present _ _ _ Htok Hne)). mrun.
      erewrite bind_eq by (by eapply delete_listing_ok).
      by rewrite Hempty. }
    by rewrite E.
  - intros urlparse url r o Hargs Hs He Hj Hempty.
    assert (Register.main urlparse w init
      = (Ret tt,
         Proc [ [Lit "Monzo Webhook Registration Tool"]; [Lit rule];
                [Lit "Webhook URL: "; Lit url];
                [Lit (NL ++ "Fetching accounts...")];
                [Lit "No accounts found."] ]
              []
              [ (Register.accounts_request tok, Replied r) ])) as E.
    { unfold Register.main. rewrite (bind_eq _ _ _ _ _ Hargs). mrun.
      rewrite (bind_eq _ _ _ _ _ (register_token_present _ _ _ Htok Hne)).
      mrun. erewrite bind_eq by (by eapply register_listing_ok).
      by rewrite Hempty. }
    by rewrite E.
Qed.

Lemma no_accounts_ends_run_witness :
  let w := sample_world with_token good_args no_accounts_server in
  (Delete.main w init).1 = Ret tt
  ∧ (Register.main urllib_urlparse w init).1 = Ret tt.
Proof.
  intros w.
  destruct (no_accounts_ends_run w "secret") as [Hd Hr];
    [reflexivity | discriminate |].
  destruct (Hd _ {[ "accounts" := VList [] ]} eq_refl eq_refl eq_refl eq_refl)
    as [-> _].
  destruct (Hr urllib_urlparse "https://example.com/webhook"
              _ {[ "accounts" := VList [] ]}
              eq_refl eq_refl eq_refl eq_refl eq_refl) as [-> _].
  done.
Defined.

(** C2 as stated fails: with an empty account listing both tools return
    from [main], and the process ends with exit status 0. *)
Lemma empty_listing_exits_with_zero :
  let w := sample_world with_token good_args no_accounts_server in
  listed_accounts (trace (Delete.main w init).2) = Some (VList [])
  ∧ exit_status (Delete.main w init).1 = 0
  ∧ listed_accounts (trace (Register.main urllib_urlparse w init).2)
    = Some (VList [])
  ∧ exit_status (Register.main urllib_urlparse w init).1 = 0.
Proof. intros w. repeat split. Qed.

(** ** The webhook URL *)

(** C3: a URL that does not start with [http://] or [https://], or whose
    network location is empty, makes the registration tool exit with
    status 1 and a validation error on standard error, before anything
    else is printed, before the credential is read and before any HTTP
    call; [ftp://x.com/hook] is rejected whatever the parser, and
    [https://] is rejected as the standard library parses it. *)
Theorem invalid_url_is_rejected :
  (∀ urlparse w prog url,
      argv w = [prog; url] →
      Register.starts_http url = false ∨ urlparse url = inr "" →
      Register.main urlparse w init
      = (Exit 1,
         Proc []
           [ [Lit (if Register.starts_http url
                   then "Error: Invalid webhook URL format"
                   else "Error: Webhook URL must start with http:// or https://")] ]
           []))
  ∧ (∀ urlparse w prog,
      argv w = [prog; "ftp://x.com/hook"] →
      Register.main urlparse w init
      = (Exit 1,
         Proc []
           [ [Lit "Error: Webhook URL must start with http:// or https://"] ]
           []))
  ∧ (∀ w prog,
      argv w = [prog; "https://"] →
      Register.main urllib_urlparse w init
      = (Exit 1, Proc [] [ [Lit "Error: Invalid webhook URL format"] ] [])).
Proof.
  assert (∀ urlparse w prog url,
      argv w = [prog; url] →
      Register.starts_http url = false ∨ urlparse url = inr "" →
      Register.main urlparse w init
      = (Exit 1,
         Proc []
           [ [Lit (if Register.starts_http url
                   then "Error: Invalid webhook URL format"
                   else "Error: Webhook URL must start with http:// or https://")] ]
           [])) as Hgen.
  { intros urlparse w prog url Hargv Hbad.
    unfold Register.main, Register.check_arguments. rewrite Hargv. simpl.
    mrun. destruct (Register.starts_http url) eqn:Hs; simpl.
    - destruct Hbad as [|Hu]; [done|]. mrun. rewrite Hu. simpl. by mrun.
    - by mrun. }
  split; [exact Hgen|]. split.
  - intros urlparse w prog Hargv.
    by rewrite (Hgen urlparse w prog _ Hargv (or_introl eq_refl)).
  - intros w prog Hargv.
    by rewrite (Hgen urllib_urlparse w prog _ Hargv (or_intror eq_refl)).
Qed.

Lemma invalid_url_is_rejected_witness :
  let w := sample_world with_token ["register_webhooks.py"; "http:///hook"]
             sample_server in
  Register.main urllib_urlparse w init
  = (Exit 1, Proc [] [ [Lit "Error: Invalid webhook URL format"] ] []).
Proof.
  intros w.
  exact (proj1 invalid_url_is_rejected urllib_urlparse w
           "register_webhooks.py" "http:///hook" eq_refl (or_intror eq_refl)).
Defined.

(** ** The calls of a try block, run *)

Lemma checked_json_run {B} w req (k : RequestException + value → M B) p :
  (checked_json w req ≫= k) p
  = k (outcome (server w (trace p) req))
      (Proc (stdout p) (stderr p) (trace p ++ [(req, server w (trace p) req)])).
Proof.
  unfold checked_json, checked. mrun. unfold outcome.
  destruct (server w _ _) as [e|r]; [done|].
  by destruct (raise_for_status r).
Qed.

Lemma checked_run {B} w req (k : RequestException + Response → M B) p :
  (checked w req ≫= k) p
  = k (match server w (trace p) req with
       | Failed e => inl e
       | Replied r =>
           match raise_for_status r with Some e => inl e | None => inr r end
       end)
      (Proc (stdout p) (stderr p) (trace p ++ [(req, server w (trace p) req)])).
Proof. unfold checked. by mrun. Qed.


(** ** Counting exchanges *)

Lemma count_app f tr1 tr2 : count f (tr1 ++ tr2) = count f tr1 + count f tr2.
Proof. induction tr1 as [|x tr1 IH]; simpl; [done|]. rewrite IH. lia. Qed.

Lemma count_nonneg f tr : (0 ≤ count f tr)%Z.
Proof. induction tr as [|x tr IH]; simpl; [done|]. destruct (f x); lia. Qed.

(** Every deletion attempt went through or failed, never both. *)
Lemma count_deletions tr :
  count is_delete tr = count deleted_ok tr + count delete_failed tr.
Proof.
  induction tr as [|x tr IH]; simpl; [done|]. rewrite IH.
  unfold deleted_ok, delete_failed.
  destruct (is_delete x), (succeeded x.2); simpl; lia.
Qed.

Lemma count_posts tr :
  count is_post tr = count registered tr + count not_registered tr.
Proof.
  induction tr as [|x tr IH]; simpl; [done|]. rewrite IH.
  unfold registered, not_registered.
  destruct (is_post x), (accepted x.2); simpl; lia.
Qed.

(** ** Lengths and loops *)

Lemma length_chars s : length (chars s) = String.length s.
Proof. induction s as [|c s IH]; simpl; [done|]. by rewrite IH. Qed.

(** A loop goes through as many items as [len] counts, and neither
    [len] nor the iteration touches the process. *)
Lemma len_iter v p n p1 q items q1 :
  len v p = (Ret n, p1) → iter v q = (Ret items, q1) →
  n = Z.of_nat (length items) ∧ p1 = p ∧ q1 = q.
Proof.
  destruct v; simpl; try done; intros [= <- <-] [= <- <-].
  - by rewrite length_chars.
  - done.
  - by rewrite !length_fmap, length_map_to_list.
Qed.

(** The items of a value that is true but is not a list are strings,
    and there is at least one. *)
Lemma iter_not_a_list v p items p' :
  truthy v = true → iter v p = (Ret items, p') →
  (∃ l, v = VList l ∧ items = l ∧ l ≠ [])
  ∨ (∃ s rest, items = VStr s :: rest).
Proof.
  destruct v; simpl; try done; intros Ht [= <- <-].
  - right. destruct s as [|c s]; simpl in *; [done|]. eauto.
  - left. exists l. by destruct l.
  - right. destruct (map_to_list o) as [|[k x] rest] eqn:E; simpl; [|eauto].
    apply map_to_list_empty_iff in E. subst o.
    by rewrite map_size_empty in Ht.
Qed.

(** ** The deletion workflow *)

Lemma delete_webhook_run {B} w tok webhook_id (k : bool → M B) p :
  let req := Delete.delete_request tok webhook_id in
  let a := server w (trace p) req in
  (Delete.delete_webhook w tok webhook_id ≫= k) p
  = match failure a with
    | None =>
        k true (Proc (stdout p) (stderr p) (trace p ++ [(req, a)]))
    | Some e =>
        k false
          (Proc (stdout p)
             (stderr p ++ [[Lit "Error deleting webhook "; Fmt webhook_id;
                            Lit ": "; Lit (exc_str e)]])
             (trace p ++ [(req, a)]))
    end.
Proof.
  intros req a. unfold Delete.delete_webhook.
  rewrite bind_assoc, checked_run. fold req a.
  destruct a as [e|r]; simpl; [by mrun|].
  destruct (raise_for_status r); by mrun.
Qed.

(** One turn of the inner loop, whatever the deletion gives. *)
Lemma delete_one_run w tok o deleted p :
  let webhook_id := default VNone (o !! "id") in
  let req := Delete.delete_request tok webhook_id in
  let a := server w (trace p) req in
  let out := stdout p
             ++ [ [Lit "    Deleting webhook: "; Fmt webhook_id];
                  [Lit "      URL: ";
                   Fmt (default (VStr "Unknown URL") (o !! "url"))] ] in
  Delete.delete_one w tok (VDict o) deleted p
  = match failure a with
    | None =>
        (Ret (deleted + 1),
         Proc (out ++ [[Lit "      ✓ Successfully deleted"]]) (stderr p)
              (trace p ++ [(req, a)]))
    | Some e =>
        (Ret deleted,
         Proc (out ++ [[Lit "      ✗ Failed to delete"]])
              (stderr p ++ [[Lit "Error deleting webhook "; Fmt webhook_id;
                             Lit ": "; Lit (exc_str e)]])
              (trace p ++ [(req, a)]))
    end.
Proof.
  intros webhook_id req a out. unfold Delete.delete_one. simpl. mrun.
  rewrite delete_webhook_run. cbn [stdout stderr trace]. fold webhook_id req a.
  subst out. destruct (failure a); mrun; by rewrite <- !app_assoc.
Qed.

Lemma delete_one_spec w tok webhook deleted p deleted' p' :
  Delete.delete_one w tok webhook deleted p = (Ret deleted', p') →
  ∃ x, trace p' = trace p ++ [x]
       ∧ is_delete x = true
       ∧ deleted' = deleted + (if succeeded x.2 then 1 else 0).
Proof.
  destruct webhook; try done. rewrite delete_one_run.
  unfold succeeded.
  destruct (failure (server w _ _)) eqn:E; intros [= <- <-];
    eexists; (split; [reflexivity|]); simpl; rewrite E; split; (done || lia).
Qed.

Lemma for_webhooks_spec w tok items : ∀ deleted p deleted' p',
  for_each items (Delete.delete_one w tok) deleted p = (Ret deleted', p') →
  ∃ tr, trace p' = trace p ++ tr
        ∧ count is_delete tr = Z.of_nat (length items)
        ∧ count deleted_ok tr = deleted' - deleted
        ∧ count is_get tr = 0.
Proof.
  induction items as [|webhook items IH]; intros deleted p deleted' p' H.
  - injection H as <- <-. exists []. rewrite app_nil_r. simpl.
    repeat split; lia.
  - simpl in H. apply bind_Ret_inv in H as (d1 & p1 & H1 & H2).
    apply delete_one_spec in H1 as (x & Htr & Hx & ->).
    apply IH in H2 as (tr & Htr' & Hn & Hok & Hget).
    exists (x :: tr). rewrite Htr', Htr, <- app_assoc. split; [done|].
    assert (is_get x = false) as Hg.
    { unfold is_get, is_delete in *. by destruct (req_method x.1). }
    cbn [count length]. unfold deleted_ok at 1. rewrite Hx, Hg. simpl.
    destruct (succeeded x.2); simpl; repeat split; lia.
Qed.

Lemma outcome_failure a e : failure a = Some e → outcome a = inl e.
Proof.
  destruct a as [e'|r]; simpl; [by intros [= ->]|]. by intros ->.
Qed.

Lemma list_webhooks_run {B} w tok account_id (k : value → M B) p :
  let req := Delete.webhooks_request tok account_id in
  let a := server w (trace p) req in
  (Delete.list_webhooks w tok account_id ≫= k) p
  = match outcome a with
    | inr data =>
        (dict_get data "webhooks" (VList []) ≫= k)
          (Proc (stdout p) (stderr p) (trace p ++ [(req, a)]))
    | inl e =>
        k (VList [])
          (Proc (stdout p)
             (stderr p ++ [[Lit "Error listing webhooks for account ";
                            Fmt account_id; Lit ": "; Lit (exc_str e)]])
             (trace p ++ [(req, a)]))
    end.
Proof.
  intros req a. unfold Delete.list_webhooks.
  rewrite bind_assoc, checked_json_run. fold req a.
  destruct (outcome a); [by mrun|done].
Qed.

(** An account whose webhook listing fails is passed over: the error is
    logged, the counters stay as they were. *)
Lemma failed_listing_skips_account w tok o counters p e :
  let account_id := default VNone (o !! "id") in
  let req := Delete.webhooks_request tok account_id in
  failure (server w (trace p) req) = Some e →
  Delete.process_account w tok (VDict o) counters p
  = (Ret counters,
     Proc (stdout p
           ++ [ [Lit (NL ++ "Processing account: ");
                 Fmt (default (VStr "Unknown") (o !! "description"));
                 Lit " ("; Fmt account_id; Lit ")"];
                [Lit "  No webhooks found for this account"] ])
          (stderr p ++ [[Lit "Error listing webhooks for account ";
                         Fmt account_id; Lit ": "; Lit (exc_str e)]])
          (trace p ++ [(req, server w (trace p) req)])).
Proof.
  intros account_id req Hf. destruct counters as [total deleted].
  unfold Delete.process_account. simpl. mrun.
  rewrite list_webhooks_run. cbn [stdout stderr trace]. fold account_id req.
  rewrite (outcome_failure _ _ Hf). simpl. mrun. by rewrite <- !app_assoc.
Qed.

Lemma delete_account_spec w tok account total deleted p total' deleted' p' :
  Delete.process_account w tok account (total, deleted) p
  = (Ret (total', deleted'), p') →
  ∃ tr, trace p' = trace p ++ tr
        ∧ count is_delete tr = total' - total
        ∧ count deleted_ok tr = deleted' - deleted
        ∧ count is_get tr = 1.
Proof.
  destruct account; try done. unfold Delete.process_account. simpl. mrun.
  rewrite list_webhooks_run. cbn [stdout stderr trace].
  set (req := Delete.webhooks_request tok _).
  set (a := server w (trace p) req).
  assert (∀ q webhooks,
    trace q = trace p ++ [(req, a)] →
    (if negb (truthy webhooks)
     then print [Lit "  No webhooks found for this account"];;
          mret (total, deleted)
     else n ← len webhooks;
          print [Lit "  Found "; Num n; Lit " webhook(s)"];;
          items ← iter webhooks;
          deleted_webhooks ←
            for_each items (Delete.delete_one w tok) deleted;
          mret (total + n, deleted_webhooks)) q
    = (Ret (total', deleted'), p') →
    ∃ tr, trace p' = trace p ++ tr
          ∧ count is_delete tr = total' - total
          ∧ count deleted_ok tr = deleted' - deleted
          ∧ count is_get tr = 1) as Hrest.
  { intros q webhooks Hq. destruct (truthy webhooks); simpl.
    - intros H. apply bind_Ret_inv in H as (n & q1 & Hlen & H).
      revert H. mrun. intros H.
      apply bind_Ret_inv in H as (items & q2 & Hiter & H).
      apply bind_Ret_inv in H as (d1 & q3 & Hloop & H).
      injection H as <- <- <-.
      assert (trace q2 = trace q1) as Hq2.
      { destruct webhooks; simpl in Hiter; try done;
          by injection Hiter as <- <-. }
      assert (n = Z.of_nat (length items) ∧ trace q1 = trace q) as [-> Hq1].
      { destruct webhooks; simpl in Hlen, Hiter; try done;
          injection Hlen as <- <-; injection Hiter as <- <-;
          simpl; rewrite ?length_chars, ?length_fmap, ?length_map_to_list;
          done. }
      apply for_webhooks_spec in Hloop as (tr & Htr & Hn & Hok & Hget).
      exists ((req, a) :: tr).
      rewrite Htr, Hq2. simpl in Hq1. rewrite Hq1, Hq, <- app_assoc.
      split; [done|]. cbn [count]. unfold deleted_ok at 1.
      change (is_delete (req, a)) with false.
      change (is_get (req, a)) with true. simpl. repeat split; lia.
    - mrun. intros [= <- <- <-]. exists [(req, a)]. simpl in *.
      split; [done|]. unfold deleted_ok.
      change (is_delete (req, a)) with false.
      change (is_get (req, a)) with true. simpl. repeat split; lia. }
  destruct (outcome a) as [e|data]; [by apply Hrest|].
  destruct data; try done. simpl. mrun. by apply Hrest.
Qed.

(** C4, as amended: when listing the webhooks of an account (a [dict],
    as the account listing gives them) fails with a transport error or
    with a 4xx or 5xx status, the statuses for which
    [raise_for_status()] raises, [list_webhooks] logs the error and
    returns the empty list; the turn of the loop for that account ends
    normally with both counters unchanged, and the loop goes on with the
    remaining accounts. *)
Theorem webhook_listing_failure_is_skipped w tok o rest counters p e :
  let account_id := default VNone (o !! "id") in
  let req := Delete.webhooks_request tok account_id in
  let logged :=
    stderr p ++ [[Lit "Error listing webhooks for account ";
                  Fmt account_id; Lit ": "; Lit (exc_str e)]] in
  let p' :=
    Proc (stdout p
          ++ [ [Lit (NL ++ "Processing account: ");
                Fmt (default (VStr "Unknown") (o !! "description"));
                Lit " ("; Fmt account_id; Lit ")"];
               [Lit "  No webhooks found for this account"] ])
         logged
         (trace p ++ [(req, server w (trace p) req)]) in
  call_fails (server w (trace p) req) e →
  Delete.list_webhooks w tok account_id p
  = (Ret (VList []),
     Proc (stdout p) logged (trace p ++ [(req, server w (trace p) req)]))
  ∧ Delete.process_account w tok (VDict o) counters p = (Ret counters, p')
  ∧ for_each (VDict o :: rest) (Delete.process_account w tok) counters p
    = for_each rest (Delete.process_account w tok) counters p'.
Proof.
  intros account_id req logged p' Hf. apply call_fails_failure in Hf.
  split; [|split].
  - unfold Delete.list_webhooks. fold req.
    pose proof (checked_json_run w req
      (λ r, match r with
            | inl e0 =>
                eprint [Lit "Error listing webhooks for account ";
                        Fmt account_id; Lit ": "; Lit (exc_str e0)];;
                mret (VList [])
            | inr data => dict_get data "webhooks" (VList [])
            end) p) as E.
    rewrite (outcome_failure _ _ Hf) in E. exact E.
  - by apply failed_listing_skips_account.
  - simpl.
    by rewrite (bind_eq _ _ _ _ _ (failed_listing_skips_account _ _ _ _ _ _ Hf)).
Qed.

Lemma webhook_listing_failure_is_skipped_witness :
  let w := sample_world with_token [] sample_server in
  let acc_2 := {[ "id" := VStr "acc_2";
                  "description" := VStr "Current account" ]} in
  (Delete.process_account w "secret" (VDict acc_2) (2, 1) init).1
  = Ret (2, 1)
  ∧ for_each [VDict acc_2; account "acc_1"]
      (Delete.process_account w "secret") (0, 0) init
    = (Ret (2, 1),
       (for_each [VDict acc_2; account "acc_1"]
          (Delete.process_account w "secret") (0, 0) init).2).
Proof.
  intros w acc_2.
  destruct (webhook_listing_failure_is_skipped w "secret" acc_2
              [account "acc_1"] (2, 1) init
              {| exc_str := "Read timed out."; exc_response := None |}
              (transport_error _)) as (_ & -> & _).
  destruct (webhook_listing_failure_is_skipped w "secret" acc_2
              [account "acc_1"] (0, 0) init
              {| exc_str := "Read timed out."; exc_response := None |}
              (transport_error _)) as (_ & _ & ->).
  split; vm_compute; reflexivity.
Defined.

(** C4 as stated fails: a webhook listing answered with status 300 is
    not a 2xx response, yet [list_webhooks] returns the webhooks of its
    body, and the turn of the loop counts them as found and goes on to
    delete them. *)
Lemma webhook_listing_with_status_300_is_not_skipped :
  let w := sample_world with_token [] status_300_server in
  match server w [] (Delete.webhooks_request "secret" (VStr "acc_1")) with
  | Replied r => status_code r = 300
  | Failed _ => False
  end
  ∧ (Delete.list_webhooks w "secret" (VStr "acc_1") init).1
    = Ret (VList [webhook "wh_1"; webhook "wh_2"])
  ∧ (Delete.process_account w "secret" (account "acc_1") (0, 0) init).1
    = Ret (2, 1)
  ∧ count is_delete
      (trace (Delete.process_account w "secret" (account "acc_1") (0, 0)
                init).2)
    = 2.
Proof. intros w. repeat split; vm_compute; reflexivity. Qed.

Lemma for_accounts_spec w tok items : ∀ total deleted p total' deleted' p',
  for_each items (Delete.process_account w tok) (total, deleted) p
  = (Ret (total', deleted'), p') →
  ∃ tr, trace p' = trace p ++ tr
        ∧ count is_delete tr = total' - total
        ∧ count deleted_ok tr = deleted' - deleted
        ∧ count is_get tr = Z.of_nat (length items).
Proof.
  induction items as [|account items IH];
    intros total deleted p total' deleted' p' H.
  - injection H as <- <- <-. exists []. rewrite app_nil_r. simpl.
    repeat split; lia.
  - simpl in H. apply bind_Ret_inv in H as ([t1 d1] & p1 & H1 & H2).
    apply delete_account_spec in H1 as (tr1 & Htr1 & Hn1 & Hok1 & Hg1).
    apply IH in H2 as (tr2 & Htr2 & Hn2 & Hok2 & Hg2).
    exists (tr1 ++ tr2). rewrite Htr2, Htr1, <- app_assoc, !count_app.
    cbn [length]. repeat split; lia.
Qed.

(** A loop over items that are strings stops at once with an
    [AttributeError]: a [str] has no [get]. *)
Lemma delete_loop_over_strings w tok s rest counters p res :
  for_each (VStr s :: rest) (Delete.process_account w tok) counters p ≠ (Ret res.1, res.2).
Proof. destruct counters. done. Qed.

(** The summary lines, as [reported] reads them back. *)
Lemma delete_summary_reported total deleted p p' :
  Delete.print_summary total deleted p = (Ret tt, p') →
  Delete.reported (stdout p') = Some (total, deleted, total - deleted)
  ∧ stderr p' = stderr p ∧ trace p' = trace p.
Proof.
  unfold Delete.print_summary. mrun. intros [= <-]. simpl.
  unfold Delete.reported. rewrite <- !app_assoc. simpl.
  by rewrite rev_app_distr.
Qed.

(** How a run of the deletion tool gets to return from [main]. *)
Lemma delete_main_inv w p :
  Delete.main w init = (Ret tt, p) →
  ∃ tok r o,
    server w [] (Delete.accounts_request tok) = Replied r
    ∧ http_error r = None ∧ resp_json r = inr (VDict o)
    ∧ let accounts := default (VList []) (o !! "accounts") in
      let listing := (Delete.accounts_request tok, Replied r) in
      (truthy accounts = false
       ∧ p = Proc [ [Lit "Monzo Webhook Deletion Tool"]; [Lit rule];
                    [Lit (NL ++ "Fetching accounts...")];
                    [Lit "No accounts found."] ] [] [listing])
      ∨ (∃ l counters p1,
          accounts = VList l
          ∧ for_each l (Delete.process_account w tok) (0, 0)
              (Proc [ [Lit "Monzo Webhook Deletion Tool"]; [Lit rule];
                      [Lit (NL ++ "Fetching accounts...")];
                      [Lit "Found "; Num (Z.of_nat (length l));
                       Lit " account(s)"] ] [] [listing])
            = (Ret counters, p1)
          ∧ Delete.print_summary counters.1 counters.2 p1 = (Ret tt, p)).
Proof.
  unfold Delete.main. mrun. intros H.
  apply bind_Ret_inv in H as (tok & p0 & Htok & H).
  apply delete_token_inv in Htok as (_ & _ & ->).
  revert H. mrun. intros H.
  apply bind_Ret_inv in H as (accounts & p0 & Hlist & H).
  apply delete_listing_inv in Hlist as (r & o & Hs & He & Hj & -> & ->).
  exists tok, r, o. repeat (split; [done|]). simpl in *.
  destruct (truthy (default (VList []) (o !! "accounts"))) eqn:Ht; simpl in H.
  - right. apply bind_Ret_inv in H as (n & q1 & Hlen & H).
    revert H. mrun. intros H.
    apply bind_Ret_inv in H as (items & q2 & Hiter & H).
    apply bind_Ret_inv in H as (counters & q3 & Hloop & H).
    destruct (len_iter _ _ _ _ _ _ _ Hlen Hiter) as (-> & -> & ->).
    destruct (iter_not_a_list _ _ _ _ Ht Hiter)
      as [(l & Hl & -> & _)|(s & rest & ->)].
    + exists l, counters, q3. by rewrite Hl.
    + by destruct (delete_loop_over_strings w tok s rest (0, 0)
                     (Proc [ [Lit "Monzo Webhook Deletion Tool"]; [Lit rule];
                             [Lit (NL ++ "Fetching accounts...")];
                             [Lit "Found ";
                              Num (Z.of_nat (length (VStr s :: rest)));
                              Lit " account(s)"] ] []
                        [(Delete.accounts_request tok, Replied r)])
                     (counters, q3)).
  - left. revert H. unfold print. simpl. by intros [= <-].
Qed.

(** ** The registration workflow *)

Lemma register_webhook_run {B} w tok account_id url (k : value → M B) p :
  let req := Register.register_request tok account_id url in
  let a := server w (trace p) req in
  (Register.register_webhook w tok account_id url ≫= k) p
  = match outcome a with
    | inr body => k body (Proc (stdout p) (stderr p) (trace p ++ [(req, a)]))
    | inl e =>
        k VNone
          (Proc (stdout p)
             (stderr p
              ++ [ [Lit "Error registering webhook for account ";
                    Fmt account_id; Lit ": "; Lit (exc_str e)] ]
              ++ match exc_response e with
                 | Some body => [ [Lit "Response: "; Lit body] ]
                 | None => []
                 end)
             (trace p ++ [(req, a)]))
    end.
Proof.
  intros req a. unfold Register.register_webhook.
  rewrite bind_assoc, checked_json_run. fold req a.
  destruct (outcome a) as [e|body]; [|by mrun].
  mrun. destruct (exc_response e); mrun;
    rewrite <- ?app_assoc; by rewrite ?app_nil_r.
Qed.

(** The value [register_webhook] returns is true exactly when the
    exchange had a success status and a parsed body that is true. *)
Lemma truthy_outcome a :
  truthy (match outcome a with inr body => body | inl _ => VNone end)
  = accepted a.
Proof.
  destruct a as [e|r]; simpl; [done|].
  unfold raise_for_status. destruct (http_error r); simpl; [done|].
  by destruct (resp_json r).
Qed.

(** A turn of the loop that is taken as a failure, whatever the reason. *)
Lemma register_account_refused w tok url o registered_count failed_count p :
  let account_id := default VNone (o !! "id") in
  let req := Register.register_request tok account_id url in
  let a := server w (trace p) req in
  accepted a = false →
  Register.process_account w tok url (VDict o)
    (registered_count, failed_count) p
  = (Ret (registered_count, failed_count + 1),
     Proc (stdout p
           ++ [ [Lit (NL ++ "Processing account: ");
                 Fmt (default (VStr "Unknown") (o !! "description"));
                 Lit " ("; Fmt account_id; Lit ")"];
                [Lit "  ✗ Failed to register webhook"] ])
          (stderr p
           ++ match outcome a with
              | inr _ => []
              | inl e =>
                  [ [Lit "Error registering webhook for account ";
                     Fmt account_id; Lit ": "; Lit (exc_str e)] ]
                  ++ match exc_response e with
                     | Some body => [ [Lit "Response: "; Lit body] ]
                     | None => []
                     end
              end)
          (trace p ++ [(req, a)])).
Proof.
  intros account_id req a Hno. unfold Register.process_account. simpl. mrun.
  rewrite register_webhook_run. cbn [stdout stderr trace].
  fold account_id req a. pose proof (truthy_outcome a) as Ht.
  rewrite Hno in Ht.
  destruct (outcome a) as [e|body]; simpl in *.
  - mrun. by rewrite <- !app_assoc.
  - rewrite Ht. mrun. by rewrite app_nil_r, <- !app_assoc.
Qed.

Lemma register_account_spec w tok url account registered_count failed_count
    p registered_count' failed_count' p' :
  Register.process_account w tok url account (registered_count, failed_count) p
  = (Ret (registered_count', failed_count'), p') →
  ∃ x, trace p' = trace p ++ [x]
       ∧ is_post x = true
       ∧ (registered_count', failed_count')
         = if accepted x.2
           then (registered_count + 1, failed_count)
           else (registered_count, failed_count + 1).
Proof.
  destruct account; try done.
  destruct (accepted (server w (trace p)
              (Register.register_request tok (default VNone (o !! "id")) url)))
    eqn:Hacc.
  - unfold Register.process_account. simpl. mrun.
    rewrite register_webhook_run. cbn [stdout stderr trace].
    pose proof (truthy_outcome
      (server w (trace p)
         (Register.register_request tok (default VNone (o !! "id")) url)))
      as Ht.
    rewrite Hacc in Ht.
    destruct (outcome _) as [e|body]; simpl in Ht; [done|].
    rewrite Ht. intros H.
    apply bind_Ret_inv in H as (wh & q1 & H1 & H).
    apply bind_Ret_inv in H as (id & q2 & H2 & H).
    revert H. mrun. intros [= <- <- <-].
    destruct body; try done. simpl in H1. injection H1 as <- <-.
    destruct (default (VDict ∅) (o0 !! "webhook")); try done.
    simpl in H2. injection H2 as <- <-.
    eexists. split; [reflexivity|]. simpl. by rewrite Hacc.
  - rewrite register_account_refused by done. intros [= <- <- <-].
    eexists. split; [reflexivity|]. simpl. by rewrite Hacc.
Qed.

(** A turn of the loop for a registration that went through with a body
    of the expected shape: the identifier shown is read out of the body. *)
Lemma register_account_accepted w tok url o registered_count failed_count p
    body wh :
  let account_id := default VNone (o !! "id") in
  let req := Register.register_request tok account_id url in
  let a := server w (trace p) req in
  outcome a = inr (VDict body) → truthy (VDict body) = true →
  default (VDict ∅) (body !! "webhook") = VDict wh →
  Register.process_account w tok url (VDict o)
    (registered_count, failed_count) p
  = (Ret (registered_count + 1, failed_count),
     Proc (stdout p
           ++ [ [Lit (NL ++ "Processing account: ");
                 Fmt (default (VStr "Unknown") (o !! "description"));
                 Lit " ("; Fmt account_id; Lit ")"];
                [Lit "  ✓ Successfully registered webhook"];
                [Lit "    Webhook ID: ";
                 Fmt (default (VStr "Unknown") (wh !! "id"))] ])
          (stderr p)
          (trace p ++ [(req, a)])).
Proof.
  intros account_id req a Hout Ht Hwh.
  unfold Register.process_account. simpl. mrun.
  rewrite register_webhook_run. cbn [stdout stderr trace].
  fold account_id req a. rewrite Hout, Ht. simpl. mrun.
  rewrite Hwh. simpl. mrun. by rewrite <- !app_assoc.
Qed.

(** C8, as amended: a registration call makes exactly one POST exchange
    and prints nothing to standard output.  When the exchange goes
    through it returns the parsed body of the response, not the
    identifier inside it, and logs nothing; on an error it returns [None]
    after logging the error to standard error, followed by the response
    body exactly when the exception carries a response.  The workflow
    reads the webhook's identifier out of the returned body to show it,
    and shows [Unknown] when the body has none. *)
Theorem register_webhook_result :
  (∀ w tok account_id url p,
      let req := Register.register_request tok account_id url in
      let a := server w (trace p) req in
      let res := Register.register_webhook w tok account_id url p in
      req_method req = POST
      ∧ stdout res.2 = stdout p
      ∧ trace res.2 = trace p ++ [(req, a)]
      ∧ match outcome a with
        | inr body => res.1 = Ret body ∧ stderr res.2 = stderr p
        | inl e =>
            res.1 = Ret VNone
            ∧ stderr res.2
              = stderr p
                ++ [ [Lit "Error registering webhook for account ";
                      Fmt account_id; Lit ": "; Lit (exc_str e)] ]
                ++ match exc_response e with
                   | Some body => [ [Lit "Response: "; Lit body] ]
                   | None => []
                   end
        end)
  ∧ (∀ w tok url o registered_count failed_count p body wh,
      let account_id := default VNone (o !! "id") in
      let req := Register.register_request tok account_id url in
      let a := server w (trace p) req in
      outcome a = inr (VDict body) → truthy (VDict body) = true →
      default (VDict ∅) (body !! "webhook") = VDict wh →
      Register.process_account w tok url (VDict o)
        (registered_count, failed_count) p
      = (Ret (registered_count + 1, failed_count),
         Proc (stdout p
               ++ [ [Lit (NL ++ "Processing account: ");
                     Fmt (default (VStr "Unknown") (o !! "description"));
                     Lit " ("; Fmt account_id; Lit ")"];
                    [Lit "  ✓ Successfully registered webhook"];
                    [Lit "    Webhook ID: ";
                     Fmt (default (VStr "Unknown") (wh !! "id"))] ])
              (stderr p)
              (trace p ++ [(req, a)]))).
Proof.
  split.
  - intros w tok account_id url p req a res. subst res.
    pose proof (register_webhook_run w tok account_id url mret p) as E.
    cbv zeta in E. fold req a in E.
    assert (∀ m : M value, (m ≫= mret) p = m p) as Hret.
    { intros m. unfold mbind, M_bind. by destruct (m p) as [[]]. }
    rewrite Hret in E. rewrite E.
    by destruct (outcome a) as [e|body].
  - intros w tok url o g f p body wh. apply register_account_accepted.
Qed.

Lemma register_webhook_result_witness :
  let w := sample_world with_token good_args sample_server in
  (Register.process_account w "secret" "https://example.com/webhook"
     (account "acc_1") (0, 0) init).1
  = Ret (1, 0).
Proof.
  intros w. unfold account.
  set (o := {[ "id" := VStr "acc_1";
               "description" := VStr "Current account" ]}).
  assert (outcome (server w (trace init)
            (Register.register_request "secret" (default VNone (o !! "id"))
               "https://example.com/webhook"))
          = inr (VDict {[ "webhook" := VDict {[ "id" := VStr "wh_9" ]} ]}))
    as Hout by (vm_compute; reflexivity).
  by rewrite (proj2 register_webhook_result w "secret"
                "https://example.com/webhook" o 0 0 init
                {[ "webhook" := VDict {[ "id" := VStr "wh_9" ]} ]}
                {[ "id" := VStr "wh_9" ]} Hout eq_refl eq_refl).
Defined.

(** C8 as stated fails: for a response carrying a webhook, the call
    returns the whole parsed body, which is not the webhook's id. *)
Lemma registrar_returns_the_body :
  let w := sample_world with_token good_args sample_server in
  let res := Register.register_webhook w "secret" (VStr "acc_1")
               "https://example.com/webhook" init in
  res.1 = Ret (VDict {[ "webhook" := VDict {[ "id" := VStr "wh_9" ]} ]})
  ∧ res.1 ≠ Ret (VStr "wh_9").
Proof. intros w res. split; [reflexivity|]. vm_compute. discriminate. Qed.

Lemma for_registrations_spec w tok url items :
  ∀ registered_count failed_count p registered_count' failed_count' p',
  for_each items (Register.process_account w tok url)
    (registered_count, failed_count) p
  = (Ret (registered_count', failed_count'), p') →
  ∃ tr, trace p' = trace p ++ tr
        ∧ count registered tr = registered_count' - registered_count
        ∧ count not_registered tr = failed_count' - failed_count
        ∧ count is_post tr = Z.of_nat (length items)
        ∧ length tr = length items.
Proof.
  induction items as [|account items IH];
    intros g f p g' f' p' H.
  - injection H as <- <- <-. exists []. rewrite app_nil_r. simpl.
    repeat split; lia.
  - simpl in H. apply bind_Ret_inv in H as ([g1 f1] & p1 & H1 & H2).
    apply register_account_spec in H1 as (x & Htr1 & Hx & Hc).
    apply IH in H2 as (tr & Htr & Hg & Hf & Hn & Hlen).
    exists (x :: tr). rewrite Htr, Htr1, <- app_assoc. split; [done|].
    cbn [count length]. unfold registered at 1, not_registered at 1.
    rewrite Hx. destruct (accepted x.2); injection Hc as -> ->; simpl;
      repeat split; lia.
Qed.

Lemma register_loop_over_strings w tok url s rest counters p res :
  for_each (VStr s :: rest) (Register.process_account w tok url) counters p
  ≠ (Ret res.1, res.2).
Proof. destruct counters. done. Qed.

Lemma register_summary_reported registered_count failed_count p p' :
  Register.print_summary registered_count failed_count p = (Ret tt, p') →
  Register.reported (stdout p') = Some (registered_count, failed_count)
  ∧ stderr p' = stderr p ∧ trace p' = trace p.
Proof.
  unfold Register.print_summary. mrun. intros [= <-]. simpl.
  unfold Register.reported. rewrite <- !app_assoc. simpl.
  by rewrite rev_app_distr.
Qed.

(** How a run of the registration tool gets to return from [main]. *)
Lemma register_main_inv urlparse w p :
  Register.main urlparse w init = (Ret tt, p) →
  ∃ url tok r o,
    server w [] (Register.accounts_request tok) = Replied r
    ∧ http_error r = None ∧ resp_json r = inr (VDict o)
    ∧ let accounts := default (VList []) (o !! "accounts") in
      let listing := (Register.accounts_request tok, Replied r) in
      (truthy accounts = false
       ∧ p = Proc [ [Lit "Monzo Webhook Registration Tool"]; [Lit rule];
                    [Lit "Webhook URL: "; Lit url];
                    [Lit (NL ++ "Fetching accounts...")];
                    [Lit "No accounts found."] ] [] [listing])
      ∨ (∃ l counters p1,
          accounts = VList l
          ∧ for_each l (Register.process_account w tok url) (0, 0)
              (Proc [ [Lit "Monzo Webhook Registration Tool"]; [Lit rule];
                      [Lit "Webhook URL: "; Lit url];
                      [Lit (NL ++ "Fetching accounts...")];
                      [Lit "Found "; Num (Z.of_nat (length l));
                       Lit " account(s)"] ] [] [listing])
            = (Ret counters, p1)
          ∧ Register.print_summary counters.1 counters.2 p1 = (Ret tt, p)).
Proof.
  unfold Register.main. intros H.
  apply bind_Ret_inv in H as (url & p0 & Hargs & H).
  pose proof (check_arguments_inv _ _ _ _ _ Hargs) as ->.
  revert H. mrun. intros H.
  apply bind_Ret_inv in H as (tok & p0 & Htok & H).
  apply register_token_inv in Htok as (_ & _ & ->).
  revert H. mrun. intros H.
  apply bind_Ret_inv in H as (accounts & p0 & Hlist & H).
  apply register_listing_inv in Hlist as (r & o & Hs & He & Hj & -> & ->).
  exists url, tok, r, o. repeat (split; [done|]). simpl in *.
  destruct (truthy (default (VList []) (o !! "accounts"))) eqn:Ht; simpl in H.
  - right. apply bind_Ret_inv in H as (n & q1 & Hlen & H).
    revert H. mrun. intros H.
    apply bind_Ret_inv in H as (items & q2 & Hiter & H).
    apply bind_Ret_inv in H as (counters & q3 & Hloop & H).
    destruct (len_iter _ _ _ _ _ _ _ Hlen Hiter) as (-> & -> & ->).
    destruct (iter_not_a_list _ _ _ _ Ht Hiter)
      as [(l & Hl & -> & _)|(s & rest & ->)].
    + exists l, counters, q3. by rewrite Hl.
    + by destruct (register_loop_over_strings w tok url s rest (0, 0)
                     (Proc [ [Lit "Monzo Webhook Registration Tool"];
                             [Lit rule]; [Lit "Webhook URL: "; Lit url];
                             [Lit (NL ++ "Fetching accounts...")];
                             [Lit "Found ";
                              Num (Z.of_nat (length (VStr s :: rest)));
                              Lit " account(s)"] ] []
                        [(Register.accounts_request tok, Replied r)])
                     (counters, q3)).
  - left. revert H. unfold print. simpl. by intros [= <-].
Qed.

(** ** What the summaries report *)

(** The summary of the deletion tool against the exchanges of the run. *)
Lemma delete_run_counts w p total deleted failed :
  Delete.main w init = (Ret tt, p) →
  Delete.reported (stdout p) = Some (total, deleted, failed) →
  total = count is_delete (trace p)
  ∧ deleted = count deleted_ok (trace p)
  ∧ failed = total - deleted
  ∧ ∃ l, listed_accounts (trace p) = Some (VList l)
         ∧ count is_get (trace p) = 1 + Z.of_nat (length l).
Proof.
  intros Hrun Hrep.
  apply delete_main_inv in Hrun
    as (tok & r & o & Hs & He & Hj & [[_ ->]|(l & [t d] & p1 & Hl & Hloop & Hsum)]);
    [done|].
  apply delete_summary_reported in Hsum as (Hrep' & _ & Htr).
  rewrite Hrep in Hrep'. injection Hrep' as -> -> ->.
  apply for_accounts_spec in Hloop as (tr & Htr' & Hn & Hok & Hget).
  rewrite Htr, Htr'. simpl. rewrite He, Hj, Hl.
  change (is_delete (Delete.accounts_request tok, Replied r)) with false.
  change (deleted_ok (Delete.accounts_request tok, Replied r)) with false.
  change (is_get (Delete.accounts_request tok, Replied r)) with true.
  repeat split; [lia..|]. exists l. split; [done|lia].
Qed.

(** The summary of the registration tool against the exchanges of the
    run. *)
Lemma register_run_counts urlparse w p registered_count failed_count :
  Register.main urlparse w init = (Ret tt, p) →
  Register.reported (stdout p) = Some (registered_count, failed_count) →
  registered_count = count registered (trace p)
  ∧ failed_count = count not_registered (trace p)
  ∧ ∃ l, listed_accounts (trace p) = Some (VList l)
         ∧ count is_post (trace p) = Z.of_nat (length l).
Proof.
  intros Hrun Hrep.
  apply register_main_inv in Hrun
    as (url & tok & r & o & Hs & He & Hj
        & [[_ ->]|(l & [g f] & p1 & Hl & Hloop & Hsum)]);
    [done|].
  apply register_summary_reported in Hsum as (Hrep' & _ & Htr).
  rewrite Hrep in Hrep'. injection Hrep' as -> ->.
  apply for_registrations_spec in Hloop as (tr & Htr' & Hg & Hf & Hn & _).
  rewrite Htr, Htr'. simpl. rewrite He, Hj, Hl.
  change (registered (Register.accounts_request tok, Replied r)) with false.
  change (not_registered (Register.accounts_request tok, Replied r))
    with false.
  change (is_post (Register.accounts_request tok, Replied r)) with false.
  repeat split; [lia..|]. exists l. split; [done|lia].
Qed.

(** C1: in a run of the deletion tool that ends with its summary, the
    total found is the sum of the deleted and the failed counts; in a run
    of the registration tool that ends with its summary, the registered
    and the failed counts add up to the number of accounts the listing
    returned. *)
Theorem summary_counters_add_up :
  (∀ w p total deleted failed,
      Delete.main w init = (Ret tt, p) →
      Delete.reported (stdout p) = Some (total, deleted, failed) →
      total = deleted + failed)
  ∧ (∀ urlparse w p registered_count failed_count,
      Register.main urlparse w init = (Ret tt, p) →
      Register.reported (stdout p) = Some (registered_count, failed_count) →
      ∃ l, listed_accounts (trace p) = Some (VList l)
           ∧ registered_count + failed_count = Z.of_nat (length l)).
Proof.
  split.
  - intros w p total deleted failed Hrun Hrep.
    destruct (delete_run_counts _ _ _ _ _ Hrun Hrep) as (_ & _ & -> & _). lia.
  - intros urlparse w p g f Hrun Hrep.
    destruct (register_run_counts _ _ _ _ _ Hrun Hrep)
      as (-> & -> & l & Hl & Hn).
    exists l. split; [done|]. by rewrite <- count_posts.
Qed.

Lemma summary_counters_add_up_witness :
  let wd := sample_world with_token [] sample_server in
  let wr := sample_world with_token good_args sample_server in
  Delete.reported (stdout (Delete.main wd init).2) = Some (2, 1, 1)
  ∧ 2 = 1 + 1
  ∧ Register.reported (stdout (Register.main urllib_urlparse wr init).2)
    = Some (1, 2)
  ∧ ∃ l, listed_accounts (trace (Register.main urllib_urlparse wr init).2)
         = Some (VList l)
         ∧ 1 + 2 = Z.of_nat (length l).
Proof.
  intros wd wr.
  assert (Delete.main wd init = (Ret tt, (Delete.main wd init).2)) as Hd
    by (vm_compute; reflexivity).
  assert (Delete.reported (stdout (Delete.main wd init).2) = Some (2, 1, 1))
    as Hdr by (vm_compute; reflexivity).
  assert (Register.main urllib_urlparse wr init
          = (Ret tt, (Register.main urllib_urlparse wr init).2)) as Hr
    by (vm_compute; reflexivity).
  assert (Register.reported
            (stdout (Register.main urllib_urlparse wr init).2)
          = Some (1, 2)) as Hrr by (vm_compute; reflexivity).
  split; [exact Hdr|]. split.
  - exact (proj1 summary_counters_add_up wd _ 2 1 1 Hd Hdr).
  - split; [exact Hrr|].
    exact (proj2 summary_counters_add_up urllib_urlparse wr _ 1 2 Hr Hrr).
Defined.



Lemma http_error_none r : http_error r = None ↔ error_status r = false.
Proof. unfold http_error. by destruct (error_status r). Qed.

(** An exchange is [accepted] exactly when [requests] returned a
    response, its status is not a 4xx or 5xx, its body parsed and the
    parsed body is true. *)
Lemma accepted_iff a :
  accepted a = true
  ↔ ∃ r body, a = Replied r ∧ error_status r = false
              ∧ resp_json r = inr body ∧ truthy body = true.
Proof.
  split.
  - destruct a as [e|r]; simpl; [done|].
    destruct (http_error r) eqn:He; [done|].
    destruct (resp_json r) as [e|body] eqn:Hj; [done|].
    intros Ht. exists r, body. by rewrite <- http_error_none.
  - intros (r & body & -> & He & Hj & Ht). simpl.
    apply http_error_none in He. by rewrite He, Hj.
Qed.

(** C10, as amended: an attempt whose turn of the loop ends, in a run
    that ends with its summary, is counted as registered exactly when the
    call went through, that is without a transport error and with a
    status that is not a 4xx or 5xx, and its parsed body is true; every
    other such attempt is counted as failed.  Each account listed had one
    attempt.  In particular an attempt answered with such a status and a
    body that is false, such as an empty object, adds one to the failed
    count, and nothing is written to standard error for it. *)
Theorem registered_iff_truthy_success :
  (∀ urlparse w p registered_count failed_count,
      Register.main urlparse w init = (Ret tt, p) →
      Register.reported (stdout p) = Some (registered_count, failed_count) →
      registered_count = count registered (trace p)
      ∧ failed_count = count not_registered (trace p)
      ∧ ∃ l, listed_accounts (trace p) = Some (VList l)
             ∧ count is_post (trace p) = Z.of_nat (length l))
  ∧ (∀ w tok url account registered_count failed_count p
       registered_count' failed_count' p',
      Register.process_account w tok url account
        (registered_count, failed_count) p
      = (Ret (registered_count', failed_count'), p') →
      ∃ x, trace p' = trace p ++ [x]
           ∧ is_post x = true
           ∧ (registered_count', failed_count')
             = if accepted x.2
               then (registered_count + 1, failed_count)
               else (registered_count, failed_count + 1))
  ∧ (∀ w tok url o registered_count failed_count p r body,
      let account_id := default VNone (o !! "id") in
      let req := Register.register_request tok account_id url in
      server w (trace p) req = Replied r →
      error_status r = false → resp_json r = inr body →
      truthy body = false →
      Register.process_account w tok url (VDict o)
        (registered_count, failed_count) p
      = (Ret (registered_count, failed_count + 1),
         Proc (stdout p
               ++ [ [Lit (NL ++ "Processing account: ");
                     Fmt (default (VStr "Unknown") (o !! "description"));
                     Lit " ("; Fmt account_id; Lit ")"];
                    [Lit "  ✗ Failed to register webhook"] ])
              (stderr p)
              (trace p ++ [(req, Replied r)])))
  ∧ (∀ a,
      accepted a = true
      ↔ ∃ r body, a = Replied r ∧ error_status r = false
                  ∧ resp_json r = inr body ∧ truthy body = true).
Proof.
  split; [|split; [|split; [|exact accepted_iff]]].
  - intros urlparse w p g f Hrun Hrep.
    exact (register_run_counts urlparse w p g f Hrun Hrep).
  - intros w tok url account g f p g' f' p'. apply register_account_spec.
  - intros w tok url o g f p r body account_id req Hs He Hj Hfalse.
    apply http_error_none in He.
    rewrite register_account_refused; fold account_id req; rewrite Hs.
    + simpl. unfold raise_for_status. rewrite He, Hj. simpl.
      by rewrite app_nil_r.
    + simpl. by rewrite He, Hj.
Qed.

Lemma registered_iff_truthy_success_witness :
  let w := sample_world with_token good_args sample_server in
  Register.reported (stdout (Register.main urllib_urlparse w init).2)
  = Some (1, 2)
  ∧ 1 = count registered (trace (Register.main urllib_urlparse w init).2)
  ∧ (Register.process_account w "secret" "https://example.com/webhook"
       (account "acc_2") (1, 0) init).1
    = Ret (1, 1).
Proof.
  intros w.
  assert (Register.main urllib_urlparse w init
          = (Ret tt, (Register.main urllib_urlparse w init).2)) as Hr
    by (vm_compute; reflexivity).
  assert (Register.reported
            (stdout (Register.main urllib_urlparse w init).2)
          = Some (1, 2)) as Hrr by (vm_compute; reflexivity).
  split; [exact Hrr|]. split.
  - exact (proj1 (proj1 registered_iff_truthy_success
                    urllib_urlparse w _ 1 2 Hr Hrr)).
  - unfold account.
    set (o := {[ "id" := VStr "acc_2";
                 "description" := VStr "Current account" ]}).
    set (r := {| status_code := 200; error_message := ""; resp_text := "";
                 resp_json := inr (VDict ∅) |}).
    assert (server w (trace init)
              (Register.register_request "secret" (default VNone (o !! "id"))
                 "https://example.com/webhook")
            = Replied r) as Hs by (vm_compute; reflexivity).
    by rewrite (proj1 (proj2 (proj2 registered_iff_truthy_success)) w
                  "secret" "https://example.com/webhook" o 1 0 init
                  r (VDict ∅) Hs eq_refl eq_refl eq_refl).
Defined.

(** C10 as stated fails, in both directions.  An attempt answered with
    status 300, which is not a 2xx, and a true body is counted as
    registered.  An attempt answered with status 200 and a true body
    whose [webhook] entry is [null] is not counted at all: the turn dies
    of an [AttributeError] before either counter moves. *)
Lemma registered_without_2xx_and_2xx_not_registered :
  let url := "https://example.com/webhook" in
  let w := sample_world with_token good_args status_300_server in
  let w' := sample_world with_token good_args null_webhook_server in
  match server w [] (Register.register_request "secret" (VStr "acc_1") url)
  with
  | Replied r => status_code r = 300
  | Failed _ => False
  end
  ∧ (Register.process_account w "secret" url (account "acc_1") (0, 0)
       init).1
    = Ret (1, 0)
  ∧ match server w' [] (Register.register_request "secret" (VStr "acc_1") url)
    with
    | Replied r =>
        status_code r = 200
        ∧ resp_json r = inr (VDict {[ "webhook" := VNone ]})
    | Failed _ => False
    end
  ∧ truthy (VDict {[ "webhook" := VNone ]}) = true
  ∧ (Register.process_account w' "secret" url (account "acc_1") (0, 0)
       init).1
    = Raise AttributeError.
Proof. intros url w w'. repeat split; vm_compute; reflexivity. Qed.

(** * Further properties of the two tools *)

(** ** Rules for invariants *)

Lemma bind_cases {A B} (m : M A) (k : A → M B) p r p' :
  (m ≫= k) p = (r, p') →
  (∃ a p1, m p = (Ret a, p1) ∧ k a p1 = (r, p'))
  ∨ (∃ c, m p = (Exit c, p') ∧ r = Exit c)
  ∨ (∃ e, m p = (Raise e, p') ∧ r = Raise e).
Proof.
  unfold mbind, M_bind. destruct (m p) as [[a|c|e] p1].
  - intros H. left. eauto.
  - intros [= <- <-]. right. left. eauto.
  - intros [= <- <-]. right. right. eauto.
Qed.

Section keeps_rules.
Context (Pout : text → Prop) (Preq : request → Prop).

Lemma keeps_mret {A} (a : A) : keeps Pout Preq (mret a).
Proof. intros p Hp. by split. Qed.

Lemma keeps_raise {A} e : keeps Pout Preq (raise e : M A).
Proof. intros p Hp. by split. Qed.

Lemma keeps_sys_exit {A} : keeps Pout Preq (sys_exit 1 : M A).
Proof. intros p Hp. split; [done|]. by intros c [= <-]. Qed.

Lemma keeps_print t : Pout t → keeps Pout Preq (print t).
Proof.
  intros Ht p [Hout Htr]. split; [|done]. split; [|done].
  simpl. apply Forall_app. split; [done|]. by apply Forall_singleton.
Qed.

Lemma keeps_eprint t : keeps Pout Preq (eprint t).
Proof. intros p Hp. by split. Qed.

Lemma keeps_send w r : Preq r → keeps Pout Preq (send w r).
Proof.
  intros Hr p [Hout Htr]. split; [|done]. split; [done|].
  simpl. apply Forall_app. split; [done|]. by apply Forall_singleton.
Qed.

Lemma keeps_bind {A B} (m : M A) (k : A → M B) :
  keeps Pout Preq m →
  (∀ a p p1, m p = (Ret a, p1) → keeps Pout Preq (k a)) →
  keeps Pout Preq (m ≫= k).
Proof.
  intros Hm Hk p Hp. specialize (Hm p Hp).
  unfold mbind, M_bind. destruct (m p) as [[a|c|e] p1] eqn:E; simpl in *.
  - apply (Hk a p p1 E). apply Hm.
  - destruct Hm as [Hi Hc]. split; [done|]. intros c' [= <-]. by apply Hc.
  - by destruct Hm as [Hi _].
Qed.

Lemma keeps_for_each {A S} (body : A → S → M S) items : ∀ s,
  (∀ x s, keeps Pout Preq (body x s)) →
  keeps Pout Preq (for_each items body s).
Proof.
  induction items as [|x items IH]; intros s Hbody; simpl.
  - apply keeps_mret.
  - apply keeps_bind; [apply Hbody|]. intros s' _ _ _. by apply IH.
Qed.

Lemma keeps_dict_get x key dflt : keeps Pout Preq (dict_get x key dflt).
Proof. destruct x; simpl; (apply keeps_mret || apply keeps_raise). Qed.

Lemma keeps_len x : keeps Pout Preq (len x).
Proof. destruct x; simpl; (apply keeps_mret || apply keeps_raise). Qed.

Lemma keeps_iter x : keeps Pout Preq (iter x).
Proof. destruct x; simpl; (apply keeps_mret || apply keeps_raise). Qed.

Lemma keeps_checked w r : Preq r → keeps Pout Preq (checked w r).
Proof.
  intros Hr. unfold checked. apply keeps_bind; [by apply keeps_send|].
  intros a _ _ _. apply keeps_mret.
Qed.

Lemma keeps_checked_json w r : Preq r → keeps Pout Preq (checked_json w r).
Proof.
  intros Hr. unfold checked_json. apply keeps_bind; [by apply keeps_checked|].
  intros a _ _ _. apply keeps_mret.
Qed.

End keeps_rules.

(** Applies the rules as far as they go. *)
Ltac keeps_auto :=
  repeat first
    [ apply keeps_mret | apply keeps_raise | apply keeps_sys_exit
    | apply keeps_eprint | apply keeps_dict_get | apply keeps_len
    | apply keeps_iter
    | match goal with
      | |- keeps _ _ (mbind _ _) => apply keeps_bind; [|intros ? ? ? ?]
      | |- keeps _ _ (if ?b then _ else _) => destruct b
      | |- keeps _ _ (match ?x with inl _ => _ | inr _ => _ end) => destruct x
      | |- keeps _ _ (match ?x with Some _ => _ | None => _ end) => destruct x
      end ].

(** ** What the functions of the deletion tool keep *)

Section delete_keeps.
Context (Pout : text → Prop) (Preq : request → Prop).
Context (w : world) (tok : string).
Hypothesis Hout : ∀ l, count_line l = false → Pout l.
Hypothesis Hacc : Preq (Delete.accounts_request tok).
Hypothesis Hwh : ∀ account_id, Preq (Delete.webhooks_request tok account_id).
Hypothesis Hdel : ∀ webhook_id, Preq (Delete.delete_request tok webhook_id).

Lemma delete_get_access_token_keeps :
  keeps Pout Preq (Delete.get_access_token w).
Proof. unfold Delete.get_access_token. keeps_auto. Qed.

Lemma delete_list_accounts_keeps :
  keeps Pout Preq (Delete.list_accounts w tok).
Proof.
  unfold Delete.list_accounts. apply keeps_bind;
    [by apply keeps_checked_json|]. intros r _ _ _. keeps_auto.
Qed.

Lemma delete_list_webhooks_keeps account_id :
  keeps Pout Preq (Delete.list_webhooks w tok account_id).
Proof.
  unfold Delete.list_webhooks. apply keeps_bind;
    [by apply keeps_checked_json|]. intros r _ _ _. keeps_auto.
Qed.

Lemma delete_webhook_keeps webhook_id :
  keeps Pout Preq (Delete.delete_webhook w tok webhook_id).
Proof.
  unfold Delete.delete_webhook. apply keeps_bind;
    [by apply keeps_checked|]. intros r _ _ _. keeps_auto.
Qed.

Lemma delete_one_keeps webhook deleted :
  keeps Pout Preq (Delete.delete_one w tok webhook deleted).
Proof.
  unfold Delete.delete_one. keeps_auto;
    try (apply keeps_print; by apply Hout).
  apply delete_webhook_keeps.
Qed.

Lemma delete_process_account_keeps account counters :
  keeps Pout Preq (Delete.process_account w tok account counters).
Proof.
  destruct counters as [total deleted]. unfold Delete.process_account.
  keeps_auto; try (apply keeps_print; by apply Hout).
  - apply delete_list_webhooks_keeps.
  - apply keeps_for_each. intros. apply delete_one_keeps.
Qed.

Lemma delete_loop_keeps items counters :
  keeps Pout Preq (for_each items (Delete.process_account w tok) counters).
Proof. apply keeps_for_each. intros. apply delete_process_account_keeps. Qed.

End delete_keeps.

(** ** What the functions of the registration tool keep *)

Section register_keeps.
Context (Pout : text → Prop) (Preq : request → Prop).
Context (w : world) (tok url : string).
Hypothesis Hout : ∀ l, count_line l = false → Pout l.
Hypothesis Hacc : Preq (Register.accounts_request tok).
Hypothesis Hreg : ∀ account_id, Preq (Register.register_request tok account_id url).

Lemma register_get_access_token_keeps :
  keeps Pout Preq (Register.get_access_token w).
Proof. unfold Register.get_access_token. keeps_auto. Qed.

Lemma register_check_arguments_keeps urlparse :
  keeps Pout Preq (Register.check_arguments urlparse w).
Proof. unfold Register.check_arguments. keeps_auto. Qed.

Lemma register_list_accounts_keeps :
  keeps Pout Preq (Register.list_accounts w tok).
Proof.
  unfold Register.list_accounts. apply keeps_bind;
    [by apply keeps_checked_json|]. intros r _ _ _. keeps_auto.
Qed.

Lemma register_webhook_keeps account_id :
  keeps Pout Preq (Register.register_webhook w tok account_id url).
Proof.
  unfold Register.register_webhook. apply keeps_bind;
    [by apply keeps_checked_json|]. intros r _ _ _. keeps_auto.
Qed.

Lemma register_process_account_keeps account counters :
  keeps Pout Preq (Register.process_account w tok url account counters).
Proof.
  destruct counters as [g f]. unfold Register.process_account.
  keeps_auto; try (apply keeps_print; by apply Hout).
  apply register_webhook_keeps.
Qed.

Lemma register_loop_keeps items counters :
  keeps Pout Preq
    (for_each items (Register.process_account w tok url) counters).
Proof.
  apply keeps_for_each. intros. apply register_process_account_keeps.
Qed.

End register_keeps.

(** ** Whole runs *)

Lemma delete_main_keeps w (Preq : request → Prop) :
  (∀ tok,
      environ w !! "MONZO_ACCESS_TOKEN" = Some tok → tok ≠ "" →
      Preq (Delete.accounts_request tok)
      ∧ (∀ account_id, Preq (Delete.webhooks_request tok account_id))
      ∧ (∀ webhook_id, Preq (Delete.delete_request tok webhook_id))) →
  keeps (λ _, True) Preq (Delete.main w).
Proof.
  intros Hreq. unfold Delete.main.
  apply keeps_bind; [by apply keeps_print|]. intros _ _ _ _.
  apply keeps_bind; [by apply keeps_print|]. intros _ _ _ _.
  apply keeps_bind; [by apply delete_get_access_token_keeps|].
  intros tok p p1 Htok. apply delete_token_inv in Htok as (Henv & Hne & _).
  destruct (Hreq tok Henv Hne) as (Hacc & Hwh & Hdel).
  apply keeps_bind; [by apply keeps_print|]. intros _ _ _ _.
  apply keeps_bind; [by apply delete_list_accounts_keeps|].
  intros accounts _ _ _. unfold Delete.print_summary.
  keeps_auto; try by apply keeps_print.
  by apply delete_loop_keeps.
Qed.

Lemma register_main_keeps urlparse w (Preq : request → Prop) :
  (∀ tok prog url,
      environ w !! "MONZO_ACCESS_TOKEN" = Some tok → tok ≠ "" →
      argv w = [prog; url] →
      Preq (Register.accounts_request tok)
      ∧ (∀ account_id, Preq (Register.register_request tok account_id url))) →
  keeps (λ _, True) Preq (Register.main urlparse w).
Proof.
  intros Hreq. unfold Register.main.
  apply keeps_bind; [by apply register_check_arguments_keeps|].
  intros url p p1 Hargs.
  assert (∃ prog, argv w = [prog; url]) as [prog Hargv].
  { destruct (check_arguments_cases urlparse w p)
      as [(prog & url' & ? & Hargv & _ & _ & _ & E)|(? & _ & _ & E)];
      rewrite E in Hargs; [|done]. injection Hargs as <- _. eauto. }
  apply keeps_bind; [by apply keeps_print|]. intros _ _ _ _.
  apply keeps_bind; [by apply keeps_print|]. intros _ _ _ _.
  apply keeps_bind; [by apply keeps_print|]. intros _ _ _ _.
  apply keeps_bind; [by apply register_get_access_token_keeps|].
  intros tok p2 p3 Htok. apply register_token_inv in Htok as (Henv & Hne & _).
  destruct (Hreq tok prog url Henv Hne Hargv) as (Hacc & Hreg).
  apply keeps_bind; [by apply keeps_print|]. intros _ _ _ _.
  apply keeps_bind; [by apply register_list_accounts_keeps|].
  intros accounts _ _ _. unfold Register.print_summary.
  keeps_auto; try by apply keeps_print.
  by apply register_loop_keeps.
Qed.

Lemma inv_init Pout Preq : inv Pout Preq init.
Proof. split; apply Forall_nil_2. Qed.

(** X1: whatever the environment, the command line and the server do,
    the exit status of either tool is 0 or 1: every [sys.exit] in the
    two scripts passes 1, and a run that does not return from [main]
    ends with status 1. *)
Theorem exit_status_is_0_or_1 :
  (∀ w, exit_status (Delete.main w init).1 = 0
        ∨ exit_status (Delete.main w init).1 = 1)
  ∧ (∀ urlparse w,
        exit_status (Register.main urlparse w init).1 = 0
        ∨ exit_status (Register.main urlparse w init).1 = 1).
Proof.
  split.
  - intros w.
    destruct (delete_main_keeps w (λ _, True)) with (p := init) as [_ Hc];
      [done|apply inv_init|].
    destruct ((Delete.main w init).1) as [[]|c|e]; simpl; auto.
  - intros urlparse w.
    destruct (register_main_keeps urlparse w (λ _, True)) with (p := init)
      as [_ Hc]; [done|apply inv_init|].
    destruct ((Register.main urlparse w init).1) as [[]|c|e]; simpl; auto.
Qed.

(** X2: every request the deletion tool makes, in any run, is one of
    three: a GET of [https://api.monzo.com/accounts], a GET of
    [https://api.monzo.com/webhooks] with [account_id] as its only query
    parameter, or a DELETE of [https://api.monzo.com/webhooks/] followed
    by the webhook's id.  Each has the [Authorization] header alone, made
    of [Bearer] and the value of the credential variable, unchanged and
    not empty, and has no body and no timeout. *)
Theorem deletion_requests_are_authorised w :
  Forall (λ x : exchange,
            ∃ tok, environ w !! "MONZO_ACCESS_TOKEN" = Some tok
                   ∧ tok ≠ ""
                   ∧ deletion_request tok x.1)
    (trace (Delete.main w init).2).
Proof.
  set (Preq := λ r : request,
         ∃ tok, environ w !! "MONZO_ACCESS_TOKEN" = Some tok
                ∧ tok ≠ ""
                ∧ deletion_request tok r).
  assert (∀ tok,
      environ w !! "MONZO_ACCESS_TOKEN" = Some tok → tok ≠ "" →
      Preq (Delete.accounts_request tok)
      ∧ (∀ account_id, Preq (Delete.webhooks_request tok account_id))
      ∧ (∀ webhook_id, Preq (Delete.delete_request tok webhook_id)))
    as Hreq.
  { intros tok Henv Hne. unfold Preq, deletion_request.
    split; [|split; intros id]; exists tok; (split; [done|]);
      (split; [done|]).
    - by left.
    - right. left. by exists id.
    - right. right. by exists id. }
  by destruct (delete_main_keeps w Preq Hreq init (inv_init _ _))
    as [[_ H] _].
Qed.

(** X3: every request the registration tool makes, in any run, is one
    of two: a GET of [https://api.monzo.com/accounts], or a POST to
    [https://api.monzo.com/webhooks] whose form fields are [account_id]
    and [url], the latter being the URL given on the command line.  Each
    has the [Authorization] header alone, made of [Bearer] and the value
    of the credential variable, unchanged and not empty, no query
    parameters and the 30 second timeout. *)
Theorem registration_requests_are_authorised urlparse w :
  Forall (λ x : exchange,
            ∃ tok prog url,
              environ w !! "MONZO_ACCESS_TOKEN" = Some tok
              ∧ tok ≠ ""
              ∧ argv w = [prog; url]
              ∧ registration_request tok url x.1)
    (trace (Register.main urlparse w init).2).
Proof.
  set (Preq := λ r : request,
         ∃ tok prog url,
           environ w !! "MONZO_ACCESS_TOKEN" = Some tok
           ∧ tok ≠ ""
           ∧ argv w = [prog; url]
           ∧ registration_request tok url r).
  assert (∀ tok prog url,
      environ w !! "MONZO_ACCESS_TOKEN" = Some tok → tok ≠ "" →
      argv w = [prog; url] →
      Preq (Register.accounts_request tok)
      ∧ (∀ account_id, Preq (Register.register_request tok account_id url)))
    as Hreq.
  { intros tok prog url Henv Hne Hargv. unfold Preq, registration_request.
    split; [|intros id]; exists tok, prog, url; repeat (split; [done|]).
    - by left.
    - right. by exists id. }
  by destruct (register_main_keeps urlparse w Preq Hreq init (inv_init _ _))
    as [[_ H] _].
Qed.

(** ** The command line of the registration tool, again *)

(** X5: called with anything but exactly one argument, the registration
    tool prints its usage to standard error and exits with status 1; it
    prints nothing to standard output, does not look at the credential
    and makes no HTTP call. *)
Theorem wrong_arity_prints_usage urlparse w :
  length (argv w) ≠ 2%nat →
  Register.main urlparse w init
  = (Exit 1,
     Proc []
       [ [Lit "Usage: python register_webhooks.py <webhook_url>"];
         [Lit (NL ++ "Example:")];
         [Lit "  python register_webhooks.py https://example.com/webhook"] ]
       []).
Proof.
  intros Hlen. unfold Register.main, Register.check_arguments.
  destruct (Nat.eqb_spec (length (argv w)) 2) as [|_]; [done|].
  simpl. by mrun.
Qed.

Lemma wrong_arity_prints_usage_witness :
  let w := sample_world with_token
             ["register_webhooks.py"; "https://a.example/hook";
              "https://b.example/hook"] sample_server in
  (Register.main urllib_urlparse w init).1 = Exit 1
  ∧ trace (Register.main urllib_urlparse w init).2 = [].
Proof.
  intros w.
  by rewrite (wrong_arity_prints_usage urllib_urlparse w
                ltac:(discriminate)).
Defined.

(** X6: when [urlparse] raises on a URL that has the right prefix, the
    registration tool reports the exception's message to standard error
    and exits with status 1, before anything is printed to standard
    output and before any HTTP call. *)
Theorem unparsable_url_is_rejected urlparse w prog url msg :
  argv w = [prog; url] →
  Register.starts_http url = true →
  urlparse url = inl msg →
  Register.main urlparse w init
  = (Exit 1,
     Proc [] [ [Lit "Error: Invalid webhook URL: "; Lit msg] ] []).
Proof.
  intros Hargv Hs Hu. unfold Register.main, Register.check_arguments.
  rewrite Hargv. simpl. mrun. rewrite Hs. simpl. mrun. rewrite Hu.
  by mrun.
Qed.

Lemma unparsable_url_is_rejected_witness :
  let w := sample_world with_token
             ["register_webhooks.py"; "http://[::1/hook"] sample_server in
  Register.main urllib_urlparse w init
  = (Exit 1,
     Proc [] [ [Lit "Error: Invalid webhook URL: "; Lit "Invalid IPv6 URL"] ]
          []).
Proof.
  intros w.
  exact (unparsable_url_is_rejected urllib_urlparse w
           "register_webhooks.py" "http://[::1/hook" "Invalid IPv6 URL"
           eq_refl eq_refl eq_refl).
Defined.

(** ** The requests of a registration run *)

Lemma register_account_exchange w tok url account counters p counters' p' :
  Register.process_account w tok url account counters p = (Ret counters', p') →
  trace p'
  = trace p
    ++ [ (Register.register_request tok (get_id account) url,
          server w (trace p)
            (Register.register_request tok (get_id account) url)) ].
Proof.
  destruct counters as [g f]. destruct account; try done.
  unfold Register.process_account. simpl. mrun.
  rewrite register_webhook_run. cbn [stdout stderr trace].
  set (req := Register.register_request tok _ url).
  set (a := server w (trace p) req).
  assert (∀ q result,
    trace q = trace p ++ [(req, a)] →
    (if truthy result
     then webhook ← dict_get result "webhook" (VDict ∅);
          webhook_id ← dict_get webhook "id" (VStr "Unknown");
          print [Lit "  ✓ Successfully registered webhook"];;
          print [Lit "    Webhook ID: "; Fmt webhook_id];;
          mret (g + 1, f)
     else print [Lit "  ✗ Failed to register webhook"];;
          mret (g, f + 1)) q
    = (Ret counters', p') →
    trace p' = trace p ++ [(req, a)]) as Hrest.
  { intros q result Hq. destruct (truthy result).
    - intros H. apply bind_Ret_inv in H as (wh & q1 & H1 & H).
      apply bind_Ret_inv in H as (id & q2 & H2 & H).
      revert H. mrun. intros [= _ <-]. simpl.
      destruct result; try done. injection H1 as _ <-.
      destruct wh; try done. by injection H2 as _ <-.
    - mrun. by intros [= _ <-]. }
  destruct (outcome a); by apply Hrest.
Qed.

Lemma for_registrations_requests w tok url items : ∀ counters p counters' p',
  for_each items (Register.process_account w tok url) counters p
  = (Ret counters', p') →
  (trace p').*1
  = (trace p).*1
    ++ ((λ account, Register.register_request tok (get_id account) url)
          <$> items).
Proof.
  induction items as [|account items IH]; intros counters p counters' p' H.
  - injection H as _ <-. by rewrite app_nil_r.
  - simpl in H. apply bind_Ret_inv in H as (c1 & p1 & H1 & H2).
    apply register_account_exchange in H1. apply IH in H2.
    rewrite H2, H1, fmap_app, <- app_assoc. done.
Qed.

(** The same as [register_main_inv], with where the URL and the token
    come from. *)
Lemma register_main_origin urlparse w p :
  Register.main urlparse w init = (Ret tt, p) →
  ∃ prog url tok r o,
    argv w = [prog; url]
    ∧ environ w !! "MONZO_ACCESS_TOKEN" = Some tok
    ∧ server w [] (Register.accounts_request tok) = Replied r
    ∧ http_error r = None ∧ resp_json r = inr (VDict o)
    ∧ let accounts := default (VList []) (o !! "accounts") in
      let listing := (Register.accounts_request tok, Replied r) in
      (truthy accounts = false ∧ trace p = [listing])
      ∨ (∃ l counters p0 p1,
          accounts = VList l
          ∧ trace p0 = [listing]
          ∧ for_each l (Register.process_account w tok url) (0, 0) p0
            = (Ret counters, p1)
          ∧ trace p = trace p1).
Proof.
  unfold Register.main. intros H.
  apply bind_Ret_inv in H as (url & p0 & Hargs & H).
  assert (∃ prog, argv w = [prog; url]) as [prog Hargv].
  { destruct (check_arguments_cases urlparse w init)
      as [(prog & url' & ? & Hargv & _ & _ & _ & E)|(? & _ & _ & E)];
      rewrite E in Hargs; [|done]. injection Hargs as <- _. eauto. }
  pose proof (check_arguments_inv _ _ _ _ _ Hargs) as ->.
  revert H. mrun. intros H.
  apply bind_Ret_inv in H as (tok & p0 & Htok & H).
  apply register_token_inv in Htok as (Henv & _ & ->).
  revert H. mrun. intros H.
  apply bind_Ret_inv in H as (accounts & p0 & Hlist & H).
  apply register_listing_inv in Hlist as (r & o & Hs & He & Hj & -> & ->).
  exists prog, url, tok, r, o. repeat (split; [done|]). simpl in *.
  destruct (truthy (default (VList []) (o !! "accounts"))) eqn:Ht; simpl in H.
  - right. apply bind_Ret_inv in H as (n & q1 & Hlen & H).
    revert H. mrun. intros H.
    apply bind_Ret_inv in H as (items & q2 & Hiter & H).
    apply bind_Ret_inv in H as (counters & q3 & Hloop & H).
    destruct (len_iter _ _ _ _ _ _ _ Hlen Hiter) as (-> & -> & ->).
    apply register_summary_reported in H as (_ & _ & Htr).
    destruct (iter_not_a_list _ _ _ _ Ht Hiter)
      as [(l & Hl & -> & _)|(s & rest & ->)].
    + eexists l, counters, _, q3. rewrite Hl. split; [done|].
      split; [|split; [exact Hloop|done]]. reflexivity.
    + by destruct (register_loop_over_strings w tok url s rest (0, 0)
                     (Proc [ [Lit "Monzo Webhook Registration Tool"];
                             [Lit rule]; [Lit "Webhook URL: "; Lit url];
                             [Lit (NL ++ "Fetching accounts...")];
                             [Lit "Found ";
                              Num (Z.of_nat (length (VStr s :: rest)));
                              Lit " account(s)"] ] []
                        [(Register.accounts_request tok, Replied r)])
                     (counters, q3)).
  - left. revert H. unfold print. simpl. by intros [= <-].
Qed.

(** X7: in a run of the registration tool that returns from [main], the
    requests made are the account listing followed by exactly one
    registration request per account listed, in the order of the
    listing, each for that account's id and for the URL given on the
    command line, with the token of the environment. *)
Theorem registration_requests_follow_listing urlparse w p :
  Register.main urlparse w init = (Ret tt, p) →
  ∃ prog url tok accounts,
    argv w = [prog; url]
    ∧ environ w !! "MONZO_ACCESS_TOKEN" = Some tok
    ∧ listed_accounts (trace p) = Some accounts
    ∧ (trace p).*1
      = Register.accounts_request tok
        :: ((λ account, Register.register_request tok (get_id account) url)
              <$> match accounts with VList l => l | _ => [] end).
Proof.
  intros H. apply register_main_origin in H
    as (prog & url & tok & r & o & Hargv & Henv & Hs & He & Hj & Hrun).
  exists prog, url, tok, (default (VList []) (o !! "accounts")).
  repeat (split; [done|]). simpl in Hrun.
  destruct Hrun as [[Ht ->]|(l & c & p0 & p1 & Hl & Hp0 & Hloop & ->)].
  - simpl. rewrite He, Hj. split; [done|].
    destruct (default (VList []) (o !! "accounts")) as [| | | | |l|];
      try done. by destruct l.
  - apply for_registrations_requests in Hloop as Hreqs.
    assert (∃ tr, trace p1 = trace p0 ++ tr) as [tr Htr].
    { destruct c as [g f].
      apply for_registrations_spec in Hloop as (tr & Htr & _). eauto. }
    split.
    + rewrite Htr, Hp0. simpl. by rewrite He, Hj.
    + by rewrite Hl, Hreqs, Hp0.
Qed.

Lemma registration_requests_follow_listing_witness :
  let w := sample_world with_token good_args sample_server in
  let p := (Register.main urllib_urlparse w init).2 in
  ∃ prog url tok accounts,
    argv w = [prog; url]
    ∧ environ w !! "MONZO_ACCESS_TOKEN" = Some tok
    ∧ listed_accounts (trace p) = Some accounts
    ∧ (trace p).*1
      = Register.accounts_request tok
        :: ((λ account, Register.register_request tok (get_id account) url)
              <$> match accounts with VList l => l | _ => [] end).
Proof.
  intros w p.
  assert (Register.main urllib_urlparse w init = (Ret tt, p)) as Hr
    by (vm_compute; reflexivity).
  exact (registration_requests_follow_listing urllib_urlparse w p Hr).
Defined.

(** ** The requests and the error log of a deletion run *)

Lemma delete_one_exchange w tok webhook deleted p deleted' p' :
  Delete.delete_one w tok webhook deleted p = (Ret deleted', p') →
  let req := Delete.delete_request tok (get_id webhook) in
  let a := server w (trace p) req in
  trace p' = trace p ++ [(req, a)]
  ∧ Z.of_nat (length (stderr p'))
    = Z.of_nat (length (stderr p)) + (if succeeded a then 0 else 1).
Proof.
  destruct webhook; try done. rewrite delete_one_run. simpl.
  unfold succeeded.
  destruct (failure (server w _ _)); intros [= _ <-]; simpl;
    rewrite ?length_app; simpl; split; (done || lia).
Qed.

Lemma for_webhooks_exchanges w tok items : ∀ deleted p deleted' p',
  for_each items (Delete.delete_one w tok) deleted p = (Ret deleted', p') →
  ∃ tr, trace p' = trace p ++ tr
        ∧ tr.*1 = (λ webhook, Delete.delete_request tok (get_id webhook))
                    <$> items
        ∧ Z.of_nat (length (stderr p'))
          = Z.of_nat (length (stderr p)) + count raised tr.
Proof.
  induction items as [|webhook items IH]; intros deleted p deleted' p' H.
  - injection H as _ <-. exists []. rewrite app_nil_r. simpl.
    repeat split; lia.
  - simpl in H. apply bind_Ret_inv in H as (d1 & p1 & H1 & H2).
    apply delete_one_exchange in H1 as (Htr1 & Herr1).
    apply IH in H2 as (tr & Htr & Hreqs & Herr).
    eexists (_ :: tr). rewrite Htr, Htr1, <- app_assoc.
    split; [reflexivity|]. split; [by rewrite fmap_cons, Hreqs|].
    cbn [count]. unfold raised at 1. simpl.
    destruct (succeeded _); simpl; lia.
Qed.

Lemma delete_loop_over_webhook_strings w tok s rest deleted p res :
  for_each (VStr s :: rest) (Delete.delete_one w tok) deleted p
  ≠ (Ret res.1, res.2).
Proof. done. Qed.

Lemma delete_account_exchanges w tok account total deleted p
    total' deleted' p' :
  Delete.process_account w tok account (total, deleted) p
  = (Ret (total', deleted'), p') →
  let req := Delete.webhooks_request tok (get_id account) in
  let a := server w (trace p) req in
  ∃ tr, trace p' = trace p ++ (req, a) :: tr
        ∧ tr.*1 = (λ webhook, Delete.delete_request tok (get_id webhook))
                    <$> webhooks_of a
        ∧ total' = total + Z.of_nat (length (webhooks_of a))
        ∧ Z.of_nat (length (stderr p'))
          = Z.of_nat (length (stderr p)) + count raised ((req, a) :: tr).
Proof.
  destruct account; try done. unfold Delete.process_account. simpl. mrun.
  rewrite list_webhooks_run. cbn [stdout stderr trace].
  set (req := Delete.webhooks_request tok _).
  set (a := server w (trace p) req).
  assert (∀ q webhooks,
    trace q = trace p ++ [(req, a)] →
    (if negb (truthy webhooks)
     then print [Lit "  No webhooks found for this account"];;
          mret (total, deleted)
     else n ← len webhooks;
          print [Lit "  Found "; Num n; Lit " webhook(s)"];;
          items ← iter webhooks;
          deleted_webhooks ←
            for_each items (Delete.delete_one w tok) deleted;
          mret (total + n, deleted_webhooks)) q
    = (Ret (total', deleted'), p') →
    ∃ tr, trace p' = trace p ++ (req, a) :: tr
          ∧ tr.*1 = (λ webhook, Delete.delete_request tok (get_id webhook))
                      <$> match webhooks with VList l => l | _ => [] end
          ∧ total' = total
                     + Z.of_nat (length match webhooks with
                                        | VList l => l | _ => [] end)
          ∧ Z.of_nat (length (stderr p'))
            = Z.of_nat (length (stderr q)) + count raised tr) as Hrest.
  { intros q webhooks Hq. destruct (truthy webhooks) eqn:Ht; simpl.
    - intros H. apply bind_Ret_inv in H as (n & q1 & Hlen & H).
      revert H. mrun. intros H.
      apply bind_Ret_inv in H as (items & q2 & Hiter & H).
      apply bind_Ret_inv in H as (d1 & q3 & Hloop & H).
      injection H as <- <- <-.
      destruct (len_iter _ _ _ _ _ _ _ Hlen Hiter) as (-> & -> & ->).
      destruct (iter_not_a_list _ _ _ _ Ht Hiter)
        as [(l & -> & -> & _)|(s & rest & ->)].
      + apply for_webhooks_exchanges in Hloop as (tr & Htr & Hreqs & Herr).
        exists tr. simpl in *. rewrite Htr, Hq, <- app_assoc.
        repeat split; done.
      + by destruct (delete_loop_over_webhook_strings w tok s rest deleted
                       (Proc (stdout q
                              ++ [[Lit "  Found ";
                                   Num (Z.of_nat (length (VStr s :: rest)));
                                   Lit " webhook(s)"]])
                          (stderr q) (trace q)) (d1, q3)).
    - mrun. intros [= <- <- <-]. exists []. simpl. rewrite Hq.
      destruct webhooks as [| | | | |[|x l]|]; simpl in *;
        try done; repeat split; (done || lia). }
  unfold webhooks_of. cbn [count].
  change (raised (req, a))
    with (match outcome a with inl _ => true | inr _ => false end).
  destruct (outcome a) as [e|data].
  - intros H.
    apply (Hrest _ (VList [])) in H as (tr & Htr & Hreqs & Ht & Herr); [|done].
    exists tr. simpl in *. rewrite length_app in Herr. simpl in Herr.
    repeat split; (done || lia).
  - destruct data; try done. simpl. mrun.
    intros H. apply Hrest in H as (tr & Htr & Hreqs & Ht & Herr); [|done].
    exists tr. simpl in *. repeat split; (done || lia).
Qed.


(** X8: a turn of the deletion loop that ends lists the webhooks of the
    account once and then requests one deletion per webhook listed, in
    the order of the listing and for that webhook's id; the total found
    grows by the number of webhooks listed, which is zero when the
    listing failed. *)
Theorem deletions_follow_listing w tok account total deleted p
    total' deleted' p' :
  Delete.process_account w tok account (total, deleted) p
  = (Ret (total', deleted'), p') →
  let req := Delete.webhooks_request tok (get_id account) in
  let a := server w (trace p) req in
  (trace p').*1
  = (trace p).*1
    ++ req :: ((λ webhook, Delete.delete_request tok (get_id webhook))
                 <$> webhooks_of a)
  ∧ total' = total + Z.of_nat (length (webhooks_of a))
  ∧ (failure a ≠ None → webhooks_of a = []).
Proof.
  intros H req a.
  apply delete_account_exchanges in H as (tr & Htr & Hreqs & Ht & _).
  fold req a in Htr, Hreqs, Ht. split; [|split; [done|]].
  - by rewrite Htr, fmap_app, fmap_cons, Hreqs.
  - intros Hf. unfold webhooks_of.
    destruct (failure a) as [e|] eqn:E; [|done].
    by rewrite (outcome_failure _ _ E).
Qed.

Lemma deletions_follow_listing_witness :
  let w := sample_world with_token [] sample_server in
  let res := Delete.process_account w "secret" (account "acc_1") (0, 0) init in
  (trace res.2).*1
  = [ Delete.webhooks_request "secret" (VStr "acc_1");
      Delete.delete_request "secret" (VStr "wh_1");
      Delete.delete_request "secret" (VStr "wh_2") ]
  ∧ res.1 = Ret (2, 1).
Proof.
  intros w res.
  assert (res = (Ret (2, 1), res.2)) as Hres by (vm_compute; reflexivity).
  destruct (deletions_follow_listing w "secret" (account "acc_1") 0 0 init
              2 1 res.2 Hres) as (Hreqs & _ & _).
  split; [|by rewrite Hres]. rewrite Hreqs. vm_compute. reflexivity.
Defined.



(** X10: the numbers of a summary are never negative, and the deletion
    tool never reports more webhooks deleted, or more failed, than it
    found. *)
Theorem summary_counters_are_bounded :
  (∀ w p total deleted failed,
      Delete.main w init = (Ret tt, p) →
      Delete.reported (stdout p) = Some (total, deleted, failed) →
      (0 ≤ deleted ≤ total)%Z ∧ (0 ≤ failed ≤ total)%Z)
  ∧ (∀ urlparse w p registered_count failed_count,
      Register.main urlparse w init = (Ret tt, p) →
      Register.reported (stdout p) = Some (registered_count, failed_count) →
      (0 ≤ registered_count)%Z ∧ (0 ≤ failed_count)%Z).
Proof.
  split.
  - intros w p total deleted failed Hrun Hrep.
    destruct (delete_run_counts _ _ _ _ _ Hrun Hrep) as (-> & -> & -> & _).
    pose proof (count_deletions (trace p)).
    pose proof (count_nonneg deleted_ok (trace p)).
    pose proof (count_nonneg delete_failed (trace p)). lia.
  - intros urlparse w p g f Hrun Hrep.
    destruct (register_run_counts _ _ _ _ _ Hrun Hrep) as (-> & -> & _).
    split; apply count_nonneg.
Qed.

Lemma summary_counters_are_bounded_witness :
  let w := sample_world with_token [] sample_server in
  (0 ≤ 1 ≤ 2)%Z ∧ (0 ≤ 1 ≤ 2)%Z.
Proof.
  intros w.
  assert (Delete.main w init = (Ret tt, (Delete.main w init).2)) as Hd
    by (vm_compute; reflexivity).
  assert (Delete.reported (stdout (Delete.main w init).2) = Some (2, 1, 1))
    as Hdr by (vm_compute; reflexivity).
  exact (proj1 summary_counters_are_bounded w _ 2 1 1 Hd Hdr).
Defined.

(** ** Listings of an unexpected shape *)

Lemma delete_listing_not_an_object w tok p r body :
  server w (trace p) (Delete.accounts_request tok) = Replied r →
  http_error r = None → resp_json r = inr body →
  (∀ o, body ≠ VDict o) →
  Delete.list_accounts w tok p
  = (Raise AttributeError,
     Proc (stdout p) (stderr p)
          (trace p ++ [(Delete.accounts_request tok, Replied r)])).
Proof.
  intros Hs He Hj Hbody. unfold Delete.list_accounts.
  rewrite checked_json_run, Hs. simpl. unfold raise_for_status.
  rewrite He, Hj. simpl. destruct body; try done. by destruct (Hbody o).
Qed.

Lemma register_listing_not_an_object w tok p r body :
  server w (trace p) (Register.accounts_request tok) = Replied r →
  http_error r = None → resp_json r = inr body →
  (∀ o, body ≠ VDict o) →
  Register.list_accounts w tok p
  = (Raise AttributeError,
     Proc (stdout p) (stderr p)
          (trace p ++ [(Register.accounts_request tok, Replied r)])).
Proof.
  intros Hs He Hj Hbody. unfold Register.list_accounts.
  rewrite checked_json_run, Hs. simpl. unfold raise_for_status.
  rewrite He, Hj. simpl. destruct body; try done. by destruct (Hbody o).
Qed.

Lemma bind_raised {A B} (m : M A) (k : A → M B) p e p1 :
  m p = (Raise e, p1) → (m ≫= k) p = (Raise e, p1).
Proof. intros H. unfold mbind, M_bind. by rewrite H. Qed.

(** X11: when the account listing comes back with a success status and
    a JSON body that is not an object, [data.get] raises an
    [AttributeError] that the [try] block does not catch: either tool
    dies right after the listing, with nothing on standard error from
    the script itself, no further request, and exit status 1. *)
Theorem listing_that_is_not_an_object_is_not_caught w tok :
  environ w !! "MONZO_ACCESS_TOKEN" = Some tok → tok ≠ "" →
  (∀ r body,
      server w [] (Delete.accounts_request tok) = Replied r →
      http_error r = None → resp_json r = inr body →
      (∀ o, body ≠ VDict o) →
      Delete.main w init
      = (Raise AttributeError,
         Proc [ [Lit "Monzo Webhook Deletion Tool"]; [Lit rule];
                [Lit (NL ++ "Fetching accounts...")] ]
              []
              [ (Delete.accounts_request tok, Replied r) ]))
  ∧ (∀ urlparse url r body,
      Register.check_arguments urlparse w init = (Ret url, init) →
      server w [] (Register.accounts_request tok) = Replied r →
      http_error r = None → resp_json r = inr body →
      (∀ o, body ≠ VDict o) →
      Register.main urlparse w init
      = (Raise AttributeError,
         Proc [ [Lit "Monzo Webhook Registration Tool"]; [Lit rule];
                [Lit "Webhook URL: "; Lit url];
                [Lit (NL ++ "Fetching accounts...")] ]
              []
              [ (Register.accounts_request tok, Replied r) ])).
Proof.
  intros Htok Hne. split.
  - intros r body Hs He Hj Hbody. unfold Delete.main. mrun.
    rewrite (bind_eq _ _ _ _ _ (delete_token_present _ _ _ Htok Hne)). mrun.
    erewrite bind_raised by (by eapply delete_listing_not_an_object).
    done.
  - intros urlparse url r body Hargs Hs He Hj Hbody. unfold Register.main.
    rewrite (bind_eq _ _ _ _ _ Hargs). mrun.
    rewrite (bind_eq _ _ _ _ _ (register_token_present _ _ _ Htok Hne)).
    mrun. erewrite bind_raised by (by eapply register_listing_not_an_object).
    done.
Qed.

Lemma listing_that_is_not_an_object_is_not_caught_witness :
  let w := sample_world with_token good_args array_server in
  (Delete.main w init).1 = Raise AttributeError
  ∧ (Register.main urllib_urlparse w init).1 = Raise AttributeError.
Proof.
  intros w.
  destruct (listing_that_is_not_an_object_is_not_caught w "secret") as [Hd Hr];
    [reflexivity | discriminate |].
  rewrite (Hd _ (VList [account "acc_1"]) eq_refl eq_refl eq_refl);
    [|discriminate].
  rewrite (Hr urllib_urlparse "https://example.com/webhook" _
             (VList [account "acc_1"]) eq_refl eq_refl eq_refl eq_refl);
    [|discriminate].
  done.
Defined.

(** X12: an account whose webhook listing goes through but gives no
    webhook, an empty list or a body without a [webhooks] entry, is
    passed over with the same message on standard output as an account
    whose listing failed; the counters stay as they were, no deletion is
    requested and nothing is written to standard error. *)
Theorem account_without_webhooks_is_passed_over w tok o counters p data :
  let account_id := default VNone (o !! "id") in
  let req := Delete.webhooks_request tok account_id in
  outcome (server w (trace p) req) = inr (VDict data) →
  truthy (default (VList []) (data !! "webhooks")) = false →
  Delete.process_account w tok (VDict o) counters p
  = (Ret counters,
     Proc (stdout p
           ++ [ [Lit (NL ++ "Processing account: ");
                 Fmt (default (VStr "Unknown") (o !! "description"));
                 Lit " ("; Fmt account_id; Lit ")"];
                [Lit "  No webhooks found for this account"] ])
          (stderr p)
          (trace p ++ [(req, server w (trace p) req)])).
Proof.
  intros account_id req Hout Hfalse. destruct counters as [total deleted].
  unfold Delete.process_account. simpl. mrun.
  rewrite list_webhooks_run. cbn [stdout stderr trace]. fold account_id req.
  rewrite Hout. simpl. mrun. rewrite Hfalse. simpl. mrun.
  by rewrite <- !app_assoc.
Qed.

Lemma account_without_webhooks_is_passed_over_witness :
  let w := sample_world with_token [] no_accounts_server in
  let o := {[ "id" := VStr "acc_1" ]} in
  (Delete.process_account w "secret" (VDict o) (3, 2) init).1 = Ret (3, 2)
  ∧ stderr (Delete.process_account w "secret" (VDict o) (3, 2) init).2 = [].
Proof.
  intros w o.
  assert (outcome (server w (trace init)
            (Delete.webhooks_request "secret" (default VNone (o !! "id"))))
          = inr (VDict {[ "accounts" := VList [] ]})) as Hout
    by (vm_compute; reflexivity).
  by rewrite (account_without_webhooks_is_passed_over w "secret" o (3, 2)
                init _ Hout eq_refl).
Defined.
